(** * Atlas Travel Assistant: domain models, tools and agent graph

    A shallow embedding of the Python sources
    - [src/atlas/domain/models.py]  (Pydantic v2 models),
    - [src/atlas/tools/search.py], [src/atlas/tools/weather.py],
      [src/atlas/tools/__init__.py], [src/atlas/config.py],
    - [src/atlas/agents/prompts.py], [src/atlas/agents/travel_agent.py],
    followed by the properties stated about them.

    Python values are embedded as follows: [int] is [Z], [float] is the
    primitive binary64 [float], [str] is [string], a [dict] with string keys
    is an association list in insertion order, [list] is [list],
    [datetime.date] and [datetime.datetime] are records of their fields.
    Code that raises returns a sum; code that reads the outside world (the
    chat model) threads an explicit world. *)

From Stdlib Require Import ZArith String Ascii List Bool Lia DecimalString.
From Stdlib Require Import Floats.PrimFloat.
From stdpp Require Import base option list strings.

Set Warnings "-register-all,-inexact-float".

Local Open Scope string_scope.
Local Open Scope Z_scope.

(** ** Python values *)

Module Py.

(** [datetime.date]: compared field by field, year first. *)
Record date := mkdate { year : Z; month : Z; day : Z }.

(** [datetime.datetime]; [tzinfo] is the UTC offset in minutes, [None]
    for a naive value. *)
Record datetime := mkdatetime {
  dt_date : date;
  hour : Z; minute : Z; second : Z; microsecond : Z;
  tzinfo : option Z
}.

(** The values that reach a validator or leave a serializer. *)
Inductive Value :=
| VNone
| VBool (b : bool)
| VInt (z : Z)
| VFloat (f : float)
| VStr (s : string)
| VDate (d : date)
| VDatetime (t : datetime)
| VList (l : list Value)
| VDict (d : list (string * Value)).

Definition Dict := list (string * Value).

(** [d.get(k)] / [k in d] / [d[k]] on a dict with string keys. *)
Fixpoint dict_get (k : string) (d : Dict) : option Value :=
  match d with
  | [] => None
  | (k', v) :: d' => if String.eqb k k' then Some v else dict_get k d'
  end.

Definition dict_has (k : string) (d : Dict) : bool :=
  match dict_get k d with Some _ => true | None => false end.

(** [d[k] = v]: replaces in place when the key exists, else appends. *)
Fixpoint dict_set (k : string) (v : Value) (d : Dict) : Dict :=
  match d with
  | [] => [(k, v)]
  | (k', v') :: d' =>
      if String.eqb k k' then (k', v) :: d' else (k', v') :: dict_set k v d'
  end.

(** Date comparison, as [date.__le__] and [date.__lt__] do it: on the
    triple (year, month, day). *)
Definition date_cmp (a b : date) : comparison :=
  match year a ?= year b with
  | Eq => match month a ?= month b with
          | Eq => day a ?= day b
          | c => c
          end
  | c => c
  end.

Definition date_le (a b : date) : bool :=
  match date_cmp a b with Gt => false | _ => true end.

Definition date_lt (a b : date) : bool :=
  match date_cmp a b with Lt => true | _ => false end.

Definition date_gt (a b : date) : bool := date_lt b a.

(** The values a [date] object can take (what the constructor of
    [datetime.date] accepts). *)
Definition is_leap (y : Z) : bool :=
  (y mod 4 =? 0) && (negb (y mod 100 =? 0) || (y mod 400 =? 0)).

Definition days_in_month (y m : Z) : Z :=
  if m =? 2 then (if is_leap y then 29 else 28)
  else if (m =? 4) || (m =? 6) || (m =? 9) || (m =? 11) then 30
  else 31.

Definition date_valid (d : date) : bool :=
  (1 <=? year d) && (year d <=? 9999) &&
  (1 <=? month d) && (month d <=? 12) &&
  (1 <=? day d) && (day d <=? days_in_month (year d) (month d)).

Definition datetime_valid (t : datetime) : bool :=
  date_valid (dt_date t) &&
  (0 <=? hour t) && (hour t <? 24) &&
  (0 <=? minute t) && (minute t <? 60) &&
  (0 <=? second t) && (second t <? 60) &&
  (0 <=? microsecond t) && (microsecond t <? 1000000) &&
  match tzinfo t with
  | None => true
  | Some off => (-1440 <? off) && (off <? 1440)
  end.

(** A float that compares equal to itself and survives JSON. *)
Definition float_finite (f : float) : bool :=
  negb (PrimFloat.is_nan f) && negb (PrimFloat.is_infinity f).

(** [str.title()] on ASCII text: the first cased character of every run
    of letters is upper-cased, the others lower-cased.  Characters
    outside ASCII letters are copied and count as uncased (the Unicode
    case tables are not part of this development). *)
Definition is_upper (c : ascii) : bool :=
  let n := nat_of_ascii c in (65 <=? n)%nat && (n <=? 90)%nat.
Definition is_lower (c : ascii) : bool :=
  let n := nat_of_ascii c in (97 <=? n)%nat && (n <=? 122)%nat.
Definition is_cased (c : ascii) : bool := is_upper c || is_lower c.
Definition to_upper (c : ascii) : ascii :=
  if is_lower c then ascii_of_nat (nat_of_ascii c - 32) else c.
Definition to_lower (c : ascii) : ascii :=
  if is_upper c then ascii_of_nat (nat_of_ascii c + 32) else c.

Fixpoint title_from (previous_is_cased : bool) (s : string) : string :=
  match s with
  | EmptyString => EmptyString
  | String c s' =>
      String (if previous_is_cased then to_lower c else to_upper c)
             (title_from (is_cased c) s')
  end.

Definition title (s : string) : string := title_from false s.

End Py.

(** ** Pydantic: validation results, field lookup, container validators *)

Module Pydantic.
Import Py.

(** One line of a [ValidationError]: where ([loc]), what kind, and the
    message. *)
Inductive LocItem := LKey (name : string) | LIdx (i : nat).

Record ErrorDetails := mkerr {
  err_type : string;
  err_loc : list LocItem;
  err_msg : string
}.

(** The outcome of validating one value: the validated value, or the
    [ValidationError] with all its lines. *)
Inductive Result (A : Type) :=
| Ok (a : A)
| Invalid (errors : list ErrorDetails).
Arguments Ok {A} a.
Arguments Invalid {A} errors.

Definition is_ok {A} (r : Result A) : bool :=
  match r with Ok _ => true | Invalid _ => false end.

Definition rmap {A B} (f : A -> B) (r : Result A) : Result B :=
  match r with Ok a => Ok (f a) | Invalid e => Invalid e end.

(** Fields are validated one after the other and every error is kept. *)
Definition ap {A B} (rf : Result (A -> B)) (ra : Result A) : Result B :=
  match rf, ra with
  | Ok f, Ok a => Ok (f a)
  | Ok _, Invalid e => Invalid e
  | Invalid e, Ok _ => Invalid e
  | Invalid e1, Invalid e2 => Invalid (e1 ++ e2)
  end.

Definition bind {A B} (r : Result A) (k : A -> Result B) : Result B :=
  match r with Ok a => k a | Invalid e => Invalid e end.

Definition at_loc (i : LocItem) (e : ErrorDetails) : ErrorDetails :=
  mkerr (err_type e) (i :: err_loc e) (err_msg e).

Definition with_loc {A} (i : LocItem) (r : Result A) : Result A :=
  match r with Ok a => Ok a | Invalid e => Invalid (map (at_loc i) e) end.

Definition type_error {A} (kind msg : string) : Result A :=
  Invalid [mkerr kind [] msg].

(** A [ValueError] raised inside a field validator. *)
Definition value_error {A} (message : string) : Result A :=
  Invalid [mkerr "value_error" [] ("Value error, " ++ message)].

(** One declared field of a model: the key of the input when present,
    the default (or default factory result) when absent, a [missing]
    error when there is no default. *)
Definition field {A} (name : string) (validator : Value -> Result A)
    (default : option A) (data : Dict) : Result A :=
  match dict_get name data with
  | Some v => with_loc (LKey name) (validator v)
  | None =>
      match default with
      | Some a => Ok a
      | None => Invalid [mkerr "missing" [LKey name] "Field required"]
      end
  end.

(** The scalar validators and serializers of pydantic-core.  They are
    part of the library, not of this repository; the development
    assumes of them what the laws below say: each validator accepts the
    native value of its own type unchanged, and accepts again what the
    serializer of the same type produced; a finite float is not
    serialized to [None]. *)
Class Core := {
  int_validator : Value -> Result Z;
  float_validator : Value -> Result float;
  str_validator : Value -> Result string;
  date_validator : Value -> Result date;
  datetime_validator : Value -> Result datetime;
  float_serializer : float -> Value;
  date_serializer : date -> Value;
  datetime_serializer : datetime -> Value;
  int_native : forall z, int_validator (VInt z) = Ok z;
  float_native : forall f, float_validator (VFloat f) = Ok f;
  str_native : forall s, str_validator (VStr s) = Ok s;
  date_native : forall d, date_valid d = true -> date_validator (VDate d) = Ok d;
  datetime_native :
    forall t, datetime_valid t = true -> datetime_validator (VDatetime t) = Ok t;
  float_serialized :
    forall f, float_finite f = true -> float_validator (float_serializer f) = Ok f;
  float_serialized_not_none :
    forall f, float_finite f = true -> float_serializer f <> VNone;
  date_serialized :
    forall d, date_valid d = true -> date_validator (date_serializer d) = Ok d;
  datetime_serialized :
    forall t, datetime_valid t = true ->
      datetime_validator (datetime_serializer t) = Ok t
}.

Section Containers.
Context {A : Type}.
Variable item : Value -> Result A.

(** [list[A]]: items in order, each error located by its index. *)
Fixpoint items_validator (i : nat) (l : list Value) : Result (list A) :=
  match l with
  | [] => Ok []
  | v :: l' =>
      ap (ap (Ok cons) (with_loc (LIdx i) (item v))) (items_validator (S i) l')
  end.

Definition list_validator (v : Value) : Result (list A) :=
  match v with
  | VList l => items_validator 0 l
  | _ => type_error "list_type" "Input should be a valid list"
  end.

(** [A | None] *)
Definition nullable_validator (v : Value) : Result (option A) :=
  match v with
  | VNone => Ok None
  | _ => rmap Some (item v)
  end.

(** [tuple[A, A]] *)
Definition pair_validator (v : Value) : Result (A * A) :=
  match v with
  | VList [a; b] =>
      ap (ap (Ok pair) (with_loc (LIdx 0) (item a))) (with_loc (LIdx 1) (item b))
  | VList _ =>
      type_error "tuple_length" "Tuple should have exactly 2 items"
  | _ => type_error "tuple_type" "Input should be a valid tuple"
  end.

(** A [str]-valued [Enum]: the input has to be the value of a member. *)
Definition enum_validator (of_value : string -> option A) (v : Value)
    : Result A :=
  match v with
  | VStr s =>
      match of_value s with
      | Some e => Ok e
      | None => type_error "enum" "Input should be a member value"
      end
  | _ => type_error "enum" "Input should be a member value"
  end.
End Containers.

(** A nested model: the input has to be a dict. *)
Definition model_validator {A} (name : string)
    (fields : Dict -> Result A) (v : Value) : Result A :=
  match v with
  | VDict data => fields data
  | _ => type_error "model_type"
           ("Input should be a valid dictionary or instance of " ++ name)
  end.

Section Serializers.
Context {A : Type}.
Variable item : A -> Value.

Definition list_serializer (l : list A) : Value := VList (map item l).

Definition nullable_serializer (o : option A) : Value :=
  match o with Some a => item a | None => VNone end.

Definition pair_serializer (p : A * A) : Value :=
  VList [item (fst p); item (snd p)].
End Serializers.

Declare Scope result_scope.
Delimit Scope result_scope with result.
Notation "f <*> x" := (ap f x) (at level 51, left associativity)
  : result_scope.

End Pydantic.

(** ** Domain models ([atlas.domain.models]) *)

(** *** Enums *)

Module ActivityCategory.
Inductive t := SIGHTSEEING | FOOD | CULTURE | ADVENTURE | LEISURE.
Definition members : list t := [SIGHTSEEING; FOOD; CULTURE; ADVENTURE; LEISURE].
Definition value (e : t) : string :=
  match e with
  | SIGHTSEEING => "sightseeing"
  | FOOD => "food"
  | CULTURE => "culture"
  | ADVENTURE => "adventure"
  | LEISURE => "leisure"
  end.
Definition of_value (s : string) : option t :=
  find (fun e => String.eqb s (value e)) members.
End ActivityCategory.

Module TripPace.
Inductive t := RELAXED | MODERATE | PACKED.
Definition members : list t := [RELAXED; MODERATE; PACKED].
Definition value (e : t) : string :=
  match e with
  | RELAXED => "relaxed"
  | MODERATE => "moderate"
  | PACKED => "packed"
  end.
Definition of_value (s : string) : option t :=
  find (fun e => String.eqb s (value e)) members.
End TripPace.

Module TransitMode.
Inductive t := WALK | BUS | TRAIN | TAXI | OTHER.
Definition members : list t := [WALK; BUS; TRAIN; TAXI; OTHER].
Definition value (e : t) : string :=
  match e with
  | WALK => "walk"
  | BUS => "bus"
  | TRAIN => "train"
  | TAXI => "taxi"
  | OTHER => "other"
  end.
Definition of_value (s : string) : option t :=
  find (fun e => String.eqb s (value e)) members.
End TransitMode.

Module DaySource.
Inductive t := USER | GENERATED | REFINED.
Definition members : list t := [USER; GENERATED; REFINED].
Definition value (e : t) : string :=
  match e with
  | USER => "user"
  | GENERATED => "generated"
  | REFINED => "refined"
  end.
Definition of_value (s : string) : option t :=
  find (fun e => String.eqb s (value e)) members.
End DaySource.

Module NoteAuthor.
Inductive t := AGENT | USER.
Definition members : list t := [AGENT; USER].
Definition value (e : t) : string :=
  match e with
  | AGENT => "agent"
  | USER => "user"
  end.
Definition of_value (s : string) : option t :=
  find (fun e => String.eqb s (value e)) members.
End NoteAuthor.

(** *** Core models

    Every class is a module: [t] is the instance, [validate_fields] is what
    the constructor runs on its keyword arguments, [model_validate] is the
    class method of that name, [model_dump] is [model_dump(mode="json")],
    and [wf] says that the dates of an instance are calendar dates and its
    floats finite numbers. *)

Import Py Pydantic.
Local Open Scope result_scope.

Definition finite_opt (o : option float) : bool :=
  match o with Some f => float_finite f | None => true end.

Definition finite_coordinates (o : option (float * float)) : bool :=
  match o with
  | Some (lat, lon) => float_finite lat && float_finite lon
  | None => true
  end.

Module TripPreferences.
Record t := mk {
  traveler_count : Z;
  budget_usd : option float;
  interests : list string;
  accessibility_needs : list string;
  pace : TripPace.t
}.

(** [TripPreferences()]: every field at its default. *)
Definition default : t := mk 1 None [] [] TripPace.MODERATE.

Definition wf (p : t) : bool := finite_opt (budget_usd p).

Section WithCore.
Context {core : Core}.

Definition validate_fields (data : Dict) : Result t :=
  Ok mk
  <*> field "traveler_count" int_validator (Some 1) data
  <*> field "budget_usd" (nullable_validator float_validator) (Some None) data
  <*> field "interests" (list_validator str_validator) (Some []) data
  <*> field "accessibility_needs" (list_validator str_validator) (Some []) data
  <*> field "pace" (enum_validator TripPace.of_value) (Some TripPace.MODERATE) data.

Definition model_validate : Value -> Result t :=
  model_validator "TripPreferences" validate_fields.

Definition model_dump (p : t) : Value :=
  VDict [("traveler_count", VInt (traveler_count p));
         ("budget_usd", nullable_serializer float_serializer (budget_usd p));
         ("interests", list_serializer VStr (interests p));
         ("accessibility_needs", list_serializer VStr (accessibility_needs p));
         ("pace", VStr (TripPace.value (pace p)))].
End WithCore.
End TripPreferences.

Module Destination.
Record t := mk {
  name : string;
  country : string;
  iata_code : option string;
  coordinates : option (float * float)
}.

Definition wf (d : t) : bool := finite_coordinates (coordinates d).

Section WithCore.
Context {core : Core}.

Definition validate_fields (data : Dict) : Result t :=
  Ok mk
  <*> field "name" str_validator None data
  <*> field "country" str_validator None data
  <*> field "iata_code" (nullable_validator str_validator) (Some None) data
  <*> field "coordinates" (nullable_validator (pair_validator float_validator))
        (Some None) data.

Definition model_validate : Value -> Result t :=
  model_validator "Destination" validate_fields.

Definition model_dump (d : t) : Value :=
  VDict [("name", VStr (name d));
         ("country", VStr (country d));
         ("iata_code", nullable_serializer VStr (iata_code d));
         ("coordinates",
          nullable_serializer (pair_serializer float_serializer) (coordinates d))].
End WithCore.
End Destination.

Module ActivityNote.
Record t := mk {
  author : NoteAuthor.t;
  content : string;
  links : list string;
  tags : list string
}.

Section WithCore.
Context {core : Core}.

Definition validate_fields (data : Dict) : Result t :=
  Ok mk
  <*> field "author" (enum_validator NoteAuthor.of_value) None data
  <*> field "content" str_validator None data
  <*> field "links" (list_validator str_validator) (Some []) data
  <*> field "tags" (list_validator str_validator) (Some []) data.

Definition model_validate : Value -> Result t :=
  model_validator "ActivityNote" validate_fields.

Definition model_dump (n : t) : Value :=
  VDict [("author", VStr (NoteAuthor.value (author n)));
         ("content", VStr (content n));
         ("links", list_serializer VStr (links n));
         ("tags", list_serializer VStr (tags n))].
End WithCore.
End ActivityNote.

Module Activity.
Record t := mk {
  title : string;
  description : string;
  duration_hours : float;
  category : ActivityCategory.t;
  start_time : option string;
  end_time : option string;
  estimated_cost_usd : option float;
  location : option string;
  coordinates : option (float * float);
  notes : list ActivityNote.t
}.

Definition wf (a : t) : bool :=
  float_finite (duration_hours a) && finite_opt (estimated_cost_usd a)
  && finite_coordinates (coordinates a).

Section WithCore.
Context {core : Core}.

Definition validate_fields (data : Dict) : Result t :=
  Ok mk
  <*> field "title" str_validator None data
  <*> field "description" str_validator None data
  <*> field "duration_hours" float_validator None data
  <*> field "category" (enum_validator ActivityCategory.of_value) None data
  <*> field "start_time" (nullable_validator str_validator) (Some None) data
  <*> field "end_time" (nullable_validator str_validator) (Some None) data
  <*> field "estimated_cost_usd" (nullable_validator float_validator) (Some None) data
  <*> field "location" (nullable_validator str_validator) (Some None) data
  <*> field "coordinates" (nullable_validator (pair_validator float_validator))
        (Some None) data
  <*> field "notes" (list_validator ActivityNote.model_validate) (Some []) data.

Definition model_validate : Value -> Result t :=
  model_validator "Activity" validate_fields.

Definition model_dump (a : t) : Value :=
  VDict [("title", VStr (title a));
         ("description", VStr (description a));
         ("duration_hours", float_serializer (duration_hours a));
         ("category", VStr (ActivityCategory.value (category a)));
         ("start_time", nullable_serializer VStr (start_time a));
         ("end_time", nullable_serializer VStr (end_time a));
         ("estimated_cost_usd",
          nullable_serializer float_serializer (estimated_cost_usd a));
         ("location", nullable_serializer VStr (location a));
         ("coordinates",
          nullable_serializer (pair_serializer float_serializer) (coordinates a));
         ("notes", list_serializer ActivityNote.model_dump (notes a))].
End WithCore.
End Activity.

Module TravelSegment.
Record t := mk {
  mode : TransitMode.t;
  duration_minutes : Z;
  description : string;
  estimated_cost_usd : option float
}.

Definition wf (s : t) : bool := finite_opt (estimated_cost_usd s).

Section WithCore.
Context {core : Core}.

Definition validate_fields (data : Dict) : Result t :=
  Ok mk
  <*> field "mode" (enum_validator TransitMode.of_value) None data
  <*> field "duration_minutes" int_validator None data
  <*> field "description" str_validator None data
  <*> field "estimated_cost_usd" (nullable_validator float_validator) (Some None) data.

Definition model_validate : Value -> Result t :=
  model_validator "TravelSegment" validate_fields.

Definition model_dump (s : t) : Value :=
  VDict [("mode", VStr (TransitMode.value (mode s)));
         ("duration_minutes", VInt (duration_minutes s));
         ("description", VStr (description s));
         ("estimated_cost_usd",
          nullable_serializer float_serializer (estimated_cost_usd s))].
End WithCore.
End TravelSegment.

Module ItineraryDay.
Record t := mk {
  date : Py.date;
  activities : list Activity.t;
  travel_segments : list TravelSegment.t;
  notes : string;
  source : DaySource.t
}.

Definition wf (d : t) : bool :=
  date_valid (date d) && forallb Activity.wf (activities d)
  && forallb TravelSegment.wf (travel_segments d).

Section WithCore.
Context {core : Core}.

Definition validate_fields (data : Dict) : Result t :=
  Ok mk
  <*> field "date" date_validator None data
  <*> field "activities" (list_validator Activity.model_validate) (Some []) data
  <*> field "travel_segments" (list_validator TravelSegment.model_validate)
        (Some []) data
  <*> field "notes" str_validator (Some "") data
  <*> field "source" (enum_validator DaySource.of_value)
        (Some DaySource.GENERATED) data.

Definition model_validate : Value -> Result t :=
  model_validator "ItineraryDay" validate_fields.

Definition model_dump (d : t) : Value :=
  VDict [("date", date_serializer (date d));
         ("activities", list_serializer Activity.model_dump (activities d));
         ("travel_segments",
          list_serializer TravelSegment.model_dump (travel_segments d));
         ("notes", VStr (notes d));
         ("source", VStr (DaySource.value (source d)))].
End WithCore.
End ItineraryDay.

Module Flight.
Record t := mk {
  airline : string;
  flight_number : string;
  departure_airport : string;
  arrival_airport : string;
  departure_time : datetime;
  arrival_time : datetime;
  duration_hours : float;
  cabin_class : string;
  estimated_cost_usd : option float
}.

Definition wf (f : t) : bool :=
  datetime_valid (departure_time f) && datetime_valid (arrival_time f)
  && float_finite (duration_hours f) && finite_opt (estimated_cost_usd f).

Section WithCore.
Context {core : Core}.

Definition validate_fields (data : Dict) : Result t :=
  Ok mk
  <*> field "airline" str_validator None data
  <*> field "flight_number" str_validator None data
  <*> field "departure_airport" str_validator None data
  <*> field "arrival_airport" str_validator None data
  <*> field "departure_time" datetime_validator None data
  <*> field "arrival_time" datetime_validator None data
  <*> field "duration_hours" float_validator None data
  <*> field "cabin_class" str_validator (Some "economy") data
  <*> field "estimated_cost_usd" (nullable_validator float_validator) (Some None) data.

Definition model_validate : Value -> Result t :=
  model_validator "Flight" validate_fields.

Definition model_dump (f : t) : Value :=
  VDict [("airline", VStr (airline f));
         ("flight_number", VStr (flight_number f));
         ("departure_airport", VStr (departure_airport f));
         ("arrival_airport", VStr (arrival_airport f));
         ("departure_time", datetime_serializer (departure_time f));
         ("arrival_time", datetime_serializer (arrival_time f));
         ("duration_hours", float_serializer (duration_hours f));
         ("cabin_class", VStr (cabin_class f));
         ("estimated_cost_usd",
          nullable_serializer float_serializer (estimated_cost_usd f))].
End WithCore.
End Flight.

Module Accommodation.
Record t := mk {
  name : string;
  star_rating : option float;
  nightly_rate_usd : option float;
  total_cost_usd : option float;
  check_in : date;
  check_out : date;
  description : string;
  location : option string;
  coordinates : option (float * float)
}.

Definition wf (a : t) : bool :=
  finite_opt (star_rating a) && finite_opt (nightly_rate_usd a)
  && finite_opt (total_cost_usd a)
  && date_valid (check_in a) && date_valid (check_out a)
  && finite_coordinates (coordinates a).

Section WithCore.
Context {core : Core}.

Definition validate_fields (data : Dict) : Result t :=
  Ok mk
  <*> field "name" str_validator None data
  <*> field "star_rating" (nullable_validator float_validator) (Some None) data
  <*> field "nightly_rate_usd" (nullable_validator float_validator) (Some None) data
  <*> field "total_cost_usd" (nullable_validator float_validator) (Some None) data
  <*> field "check_in" date_validator None data
  <*> field "check_out" date_validator None data
  <*> field "description" str_validator (Some "") data
  <*> field "location" (nullable_validator str_validator) (Some None) data
  <*> field "coordinates" (nullable_validator (pair_validator float_validator))
        (Some None) data.

Definition model_validate : Value -> Result t :=
  model_validator "Accommodation" validate_fields.

Definition model_dump (a : t) : Value :=
  VDict [("name", VStr (name a));
         ("star_rating", nullable_serializer float_serializer (star_rating a));
         ("nightly_rate_usd",
          nullable_serializer float_serializer (nightly_rate_usd a));
         ("total_cost_usd",
          nullable_serializer float_serializer (total_cost_usd a));
         ("check_in", date_serializer (check_in a));
         ("check_out", date_serializer (check_out a));
         ("description", VStr (description a));
         ("location", nullable_serializer VStr (location a));
         ("coordinates",
          nullable_serializer (pair_serializer float_serializer) (coordinates a))].
End WithCore.
End Accommodation.

Module Itinerary.
Record t := mk {
  destination : Destination.t;
  start_date : date;
  end_date : date;
  preferences : TripPreferences.t;
  days : list ItineraryDay.t;
  flights : list Flight.t;
  accommodations : list Accommodation.t;
  created_at : datetime
}.

(** [info.data] as the validator of [end_date] sees it: the fields
    declared before [end_date], each present when it passed its own
    validation. *)
Record ValidationInfo := mkinfo {
  data_destination : option Destination.t;
  data_start_date : option date
}.

Definition validated {A} (r : Result A) : option A :=
  match r with Ok a => Some a | Invalid _ => None end.

(** [@field_validator("end_date")]:
    [if "start_date" in info.data and v <= info.data["start_date"]:
        raise ValueError("end_date must be after start_date")]
    [return v] *)
Definition end_after_start (v : date) (info_data : ValidationInfo) : Result date :=
  match data_start_date info_data with
  | Some start =>
      if date_le v start
      then value_error "end_date must be after start_date"
      else Ok v
  | None => Ok v
  end.

Definition wf (i : t) : bool :=
  Destination.wf (destination i)
  && date_valid (start_date i) && date_valid (end_date i)
  && TripPreferences.wf (preferences i)
  && forallb ItineraryDay.wf (days i)
  && forallb Flight.wf (flights i)
  && forallb Accommodation.wf (accommodations i)
  && datetime_valid (created_at i)
  && date_gt (end_date i) (start_date i).

Section WithCore.
Context {core : Core}.
(** The clock reading of [datetime.now(timezone.utc)]. *)
Variable now : datetime.

Definition validate_fields (data : Dict) : Result t :=
  let r_destination := field "destination" Destination.model_validate None data in
  let r_start_date := field "start_date" date_validator None data in
  let info_data := mkinfo (validated r_destination) (validated r_start_date) in
  let r_end_date :=
    field "end_date"
      (fun v => bind (date_validator v) (fun d => end_after_start d info_data))
      None data in
  Ok mk
  <*> r_destination
  <*> r_start_date
  <*> r_end_date
  <*> field "preferences" TripPreferences.model_validate
        (Some TripPreferences.default) data
  <*> field "days" (list_validator ItineraryDay.model_validate) (Some []) data
  <*> field "flights" (list_validator Flight.model_validate) (Some []) data
  <*> field "accommodations" (list_validator Accommodation.model_validate)
        (Some []) data
  <*> field "created_at" datetime_validator (Some now) data.

Definition model_validate : Value -> Result t :=
  model_validator "Itinerary" validate_fields.

Definition model_dump (i : t) : Value :=
  VDict [("destination", Destination.model_dump (destination i));
         ("start_date", date_serializer (start_date i));
         ("end_date", date_serializer (end_date i));
         ("preferences", TripPreferences.model_dump (preferences i));
         ("days", list_serializer ItineraryDay.model_dump (days i));
         ("flights", list_serializer Flight.model_dump (flights i));
         ("accommodations",
          list_serializer Accommodation.model_dump (accommodations i));
         ("created_at", datetime_serializer (created_at i))].
End WithCore.
End Itinerary.

Module ChatMessage.
Record t := mk {
  role : string;
  content : string;
  timestamp : datetime
}.

Definition wf (m : t) : bool := datetime_valid (timestamp m).

Section WithCore.
Context {core : Core}.
Variable now : datetime.

Definition validate_fields (data : Dict) : Result t :=
  Ok mk
  <*> field "role" str_validator None data
  <*> field "content" str_validator None data
  <*> field "timestamp" datetime_validator (Some now) data.

Definition model_validate : Value -> Result t :=
  model_validator "ChatMessage" validate_fields.

Definition model_dump (m : t) : Value :=
  VDict [("role", VStr (role m));
         ("content", VStr (content m));
         ("timestamp", datetime_serializer (timestamp m))].
End WithCore.
End ChatMessage.

Module UserProfile.
Record t := mk {
  favourite_destination_types : list string;
  favourite_categories : list string;
  preferred_pace : TripPace.t;
  typical_budget_usd : option float;
  past_destinations : list string;
  trip_count : Z;
  updated_at : datetime
}.

Definition wf (p : t) : bool :=
  finite_opt (typical_budget_usd p) && datetime_valid (updated_at p).

Section WithCore.
Context {core : Core}.
Variable now : datetime.

Definition validate_fields (data : Dict) : Result t :=
  Ok mk
  <*> field "favourite_destination_types" (list_validator str_validator)
        (Some []) data
  <*> field "favourite_categories" (list_validator str_validator) (Some []) data
  <*> field "preferred_pace" (enum_validator TripPace.of_value)
        (Some TripPace.MODERATE) data
  <*> field "typical_budget_usd" (nullable_validator float_validator)
        (Some None) data
  <*> field "past_destinations" (list_validator str_validator) (Some []) data
  <*> field "trip_count" int_validator (Some 0) data
  <*> field "updated_at" datetime_validator (Some now) data.

Definition model_validate : Value -> Result t :=
  model_validator "UserProfile" validate_fields.

Definition model_dump (p : t) : Value :=
  VDict [("favourite_destination_types",
          list_serializer VStr (favourite_destination_types p));
         ("favourite_categories", list_serializer VStr (favourite_categories p));
         ("preferred_pace", VStr (TripPace.value (preferred_pace p)));
         ("typical_budget_usd",
          nullable_serializer float_serializer (typical_budget_usd p));
         ("past_destinations", list_serializer VStr (past_destinations p));
         ("trip_count", VInt (trip_count p));
         ("updated_at", datetime_serializer (updated_at p))].
End WithCore.
End UserProfile.

(** *** Model classes, their configuration and attribute assignment *)

Module BaseModel.

Inductive ModelClass :=
| TripPreferences | Destination | ActivityNote | Activity | TravelSegment
| ItineraryDay | Flight | Accommodation | Itinerary | ChatMessage | UserProfile.

Record ConfigDict := mkconfig { frozen : bool }.

(** [model_config] of each class: [ConfigDict(frozen=True)] where the
    class body sets it, the default configuration elsewhere. *)
Definition model_config (c : ModelClass) : ConfigDict :=
  match c with
  | TripPreferences => mkconfig false
  | Destination => mkconfig false
  | ActivityNote => mkconfig true
  | Activity => mkconfig true
  | TravelSegment => mkconfig true
  | ItineraryDay => mkconfig true
  | Flight => mkconfig true
  | Accommodation => mkconfig true
  | Itinerary => mkconfig false
  | ChatMessage => mkconfig false
  | UserProfile => mkconfig false
  end.

Definition model_fields (c : ModelClass) : list string :=
  match c with
  | TripPreferences =>
      ["traveler_count"; "budget_usd"; "interests"; "accessibility_needs"; "pace"]
  | Destination => ["name"; "country"; "iata_code"; "coordinates"]
  | ActivityNote => ["author"; "content"; "links"; "tags"]
  | Activity =>
      ["title"; "description"; "duration_hours"; "category"; "start_time";
       "end_time"; "estimated_cost_usd"; "location"; "coordinates"; "notes"]
  | TravelSegment =>
      ["mode"; "duration_minutes"; "description"; "estimated_cost_usd"]
  | ItineraryDay => ["date"; "activities"; "travel_segments"; "notes"; "source"]
  | Flight =>
      ["airline"; "flight_number"; "departure_airport"; "arrival_airport";
       "departure_time"; "arrival_time"; "duration_hours"; "cabin_class";
       "estimated_cost_usd"]
  | Accommodation =>
      ["name"; "star_rating"; "nightly_rate_usd"; "total_cost_usd"; "check_in";
       "check_out"; "description"; "location"; "coordinates"]
  | Itinerary =>
      ["destination"; "start_date"; "end_date"; "preferences"; "days";
       "flights"; "accommodations"; "created_at"]
  | ChatMessage => ["role"; "content"; "timestamp"]
  | UserProfile =>
      ["favourite_destination_types"; "favourite_categories"; "preferred_pace";
       "typical_budget_usd"; "past_destinations"; "trip_count"; "updated_at"]
  end.

(** An instance as attribute assignment sees it: its class and the
    attribute dict, each field shown in its dumped form. *)
Record Instance := mkinstance { cls : ModelClass; attrs : Dict }.

Definition instance_of (c : ModelClass) (dumped : Value) : Instance :=
  mkinstance c (match dumped with VDict d => d | _ => [] end).

Inductive SetattrError :=
| FrozenInstance   (* ValidationError, type frozen_instance *)
| NoSuchField.     (* ValueError: object has no field *)

Definition is_valid_field_name (name : string) : bool :=
  negb (String.prefix "_" name).

Definition is_field (c : ModelClass) (name : string) : bool :=
  existsb (String.eqb name) (model_fields c).

(** [BaseModel.__setattr__(self, name, value)]: the outcome and the
    instance afterwards.  No class sets [validate_assignment], so an
    accepted value is stored as it is. *)
Definition setattr (self : Instance) (name : string) (value : Value)
    : (SetattrError + unit) * Instance :=
  if negb (is_valid_field_name name)
  then (inr tt, mkinstance (cls self) (dict_set name value (attrs self)))
  else if frozen (model_config (cls self))
  then (inl FrozenInstance, self)
  else if negb (is_field (cls self) name)
  then (inl NoSuchField, self)
  else (inr tt, mkinstance (cls self) (dict_set name value (attrs self))).

End BaseModel.

(** *** The smallest core

    Each scalar validator accepts the native value of its type and nothing
    else, and serialization keeps native values ([model_dump()] in Python
    mode).  It shows that the laws of [Core] can be met, and lets every
    definition above be evaluated. *)

Definition native_core : Core := {|
  int_validator v :=
    match v with
    | VInt z => Ok z
    | _ => type_error "int_type" "Input should be a valid integer"
    end;
  float_validator v :=
    match v with
    | VFloat f => Ok f
    | _ => type_error "float_type" "Input should be a valid number"
    end;
  str_validator v :=
    match v with
    | VStr s => Ok s
    | _ => type_error "string_type" "Input should be a valid string"
    end;
  date_validator v :=
    match v with
    | VDate d => Ok d
    | _ => type_error "date_type" "Input should be a valid date"
    end;
  datetime_validator v :=
    match v with
    | VDatetime t => Ok t
    | _ => type_error "datetime_type" "Input should be a valid datetime"
    end;
  float_serializer := VFloat;
  date_serializer := VDate;
  datetime_serializer := VDatetime;
  int_native := fun _ => eq_refl;
  float_native := fun _ => eq_refl;
  str_native := fun _ => eq_refl;
  date_native := fun _ _ => eq_refl;
  datetime_native := fun _ _ => eq_refl;
  float_serialized := fun _ _ => eq_refl;
  float_serialized_not_none := fun f _ (E : VFloat f = VNone) =>
    eq_ind (VFloat f) (fun v => match v with VFloat _ => True | _ => False end)
      I VNone E;
  date_serialized := fun _ _ => eq_refl;
  datetime_serialized := fun _ _ => eq_refl
|}.

(** *** Any instance of a domain model *)

Module Entity.
Import BaseModel.

Inductive t :=
| OfTripPreferences (x : TripPreferences.t)
| OfDestination (x : Destination.t)
| OfActivityNote (x : ActivityNote.t)
| OfActivity (x : Activity.t)
| OfTravelSegment (x : TravelSegment.t)
| OfItineraryDay (x : ItineraryDay.t)
| OfFlight (x : Flight.t)
| OfAccommodation (x : Accommodation.t)
| OfItinerary (x : Itinerary.t)
| OfChatMessage (x : ChatMessage.t)
| OfUserProfile (x : UserProfile.t).

Definition class_of (e : t) : ModelClass :=
  match e with
  | OfTripPreferences _ => TripPreferences
  | OfDestination _ => Destination
  | OfActivityNote _ => ActivityNote
  | OfActivity _ => Activity
  | OfTravelSegment _ => TravelSegment
  | OfItineraryDay _ => ItineraryDay
  | OfFlight _ => Flight
  | OfAccommodation _ => Accommodation
  | OfItinerary _ => Itinerary
  | OfChatMessage _ => ChatMessage
  | OfUserProfile _ => UserProfile
  end.

(** Well-formed: dates are calendar dates, floats are finite, and an
    itinerary ends after it starts. *)
Definition wf (e : t) : bool :=
  match e with
  | OfTripPreferences x => TripPreferences.wf x
  | OfDestination x => Destination.wf x
  | OfActivityNote _ => true
  | OfActivity x => Activity.wf x
  | OfTravelSegment x => TravelSegment.wf x
  | OfItineraryDay x => ItineraryDay.wf x
  | OfFlight x => Flight.wf x
  | OfAccommodation x => Accommodation.wf x
  | OfItinerary x => Itinerary.wf x
  | OfChatMessage x => ChatMessage.wf x
  | OfUserProfile x => UserProfile.wf x
  end.

Section WithCore.
Context {core : Core}.
Variable now : datetime.

(** [e.model_dump(mode="json")] *)
Definition model_dump (e : t) : Value :=
  match e with
  | OfTripPreferences x => TripPreferences.model_dump x
  | OfDestination x => Destination.model_dump x
  | OfActivityNote x => ActivityNote.model_dump x
  | OfActivity x => Activity.model_dump x
  | OfTravelSegment x => TravelSegment.model_dump x
  | OfItineraryDay x => ItineraryDay.model_dump x
  | OfFlight x => Flight.model_dump x
  | OfAccommodation x => Accommodation.model_dump x
  | OfItinerary x => Itinerary.model_dump x
  | OfChatMessage x => ChatMessage.model_dump x
  | OfUserProfile x => UserProfile.model_dump x
  end.

(** [c.model_validate(v)] *)
Definition model_validate (c : ModelClass) (v : Value) : Result t :=
  match c with
  | TripPreferences => rmap OfTripPreferences (TripPreferences.model_validate v)
  | Destination => rmap OfDestination (Destination.model_validate v)
  | ActivityNote => rmap OfActivityNote (ActivityNote.model_validate v)
  | Activity => rmap OfActivity (Activity.model_validate v)
  | TravelSegment => rmap OfTravelSegment (TravelSegment.model_validate v)
  | ItineraryDay => rmap OfItineraryDay (ItineraryDay.model_validate v)
  | Flight => rmap OfFlight (Flight.model_validate v)
  | Accommodation => rmap OfAccommodation (Accommodation.model_validate v)
  | Itinerary => rmap OfItinerary (Itinerary.model_validate now v)
  | ChatMessage => rmap OfChatMessage (ChatMessage.model_validate now v)
  | UserProfile => rmap OfUserProfile (UserProfile.model_validate now v)
  end.
End WithCore.

End Entity.

(** ** Settings ([atlas.config]) *)

Module Config.
(** [Settings], as resolved from the environment; [get_settings()] reads
    it once and caches it, so a run sees one value of it. *)
Record Settings := mksettings {
  openrouter_api_key : string;
  atlas_llm_model : string;
  openrouter_base_url : string;
  atlas_weather_api_key : string;
  atlas_debug : bool;
  atlas_host : string;
  atlas_port : Z
}.
End Config.

(** ** Tools ([atlas.tools]) *)

Module Tools.
Import Config.

(** [str(n)] for an [int]. *)
Definition str_of_int (n : Z) : string :=
  DecimalString.NilZero.string_of_int (Z.to_int n).

(** The two [httpx] exceptions the tools catch. *)
Inductive HttpxError :=
| HTTPStatusError (status_code : Z)
| RequestError (exc : string).

(** *** [search_destinations] *)

(** The body of the [try]: the placeholder record. *)
Definition search_try (query : string) (max_results : Z)
    : HttpxError + list Value :=
  inr [VDict [("name", VStr (title query));
              ("country", VStr "Unknown");
              ("description",
               VStr ("Search results for '" ++ query ++ "' — integration pending."));
              ("coordinates", VNone);
              ("note",
               VStr "Destination search integration pending — placeholder data.")]].

Definition search_except (exc : HttpxError) : list Value :=
  match exc with
  | HTTPStatusError status_code =>
      [VDict [("error",
               VStr ("Search API returned " ++ str_of_int status_code ++ "."))]]
  | RequestError e =>
      [VDict [("error", VStr ("Search API request failed: " ++ e))]]
  end.

Definition search_destinations (query : string) (max_results : Z) : list Value :=
  match search_try query max_results with
  | inr results => results
  | inl exc => search_except exc
  end.

(** *** [get_weather] *)

Definition weather_try (city date api_key : string) : HttpxError + Value :=
  inr (VDict [("city", VStr city);
              ("date", VStr date);
              ("temp_high_c", VNone);
              ("temp_low_c", VNone);
              ("conditions", VStr "unknown");
              ("precipitation_pct", VNone);
              ("note", VStr "Weather integration pending — placeholder data.")]).

Definition weather_except (city date : string) (exc : HttpxError) : Value :=
  match exc with
  | HTTPStatusError status_code =>
      VDict [("city", VStr city);
             ("date", VStr date);
             ("error",
              VStr ("Weather API returned " ++ str_of_int status_code ++ "."))]
  | RequestError e =>
      VDict [("city", VStr city);
             ("date", VStr date);
             ("error", VStr ("Weather API request failed: " ++ e))]
  end.

Definition get_weather (cfg : Settings) (city date : string) : Value :=
  let api_key := atlas_weather_api_key cfg in
  if String.eqb api_key EmptyString
  then VDict [("city", VStr city);
              ("date", VStr date);
              ("error",
               VStr "Weather API key not configured — skipping forecast.")]
  else match weather_try city date api_key with
       | inr forecast => forecast
       | inl exc => weather_except city date exc
       end.

(** Field access on a returned record. *)
Definition record_get (k : string) (v : Value) : option Value :=
  match v with VDict d => dict_get k d | _ => None end.

Definition record_has (k : string) (v : Value) : bool :=
  match record_get k v with Some _ => true | None => false end.

(** *** The [@tool] wrappers and the registry

    A tool has a name and is invoked with the argument dict of a tool
    call: the arguments are validated against the signature of the
    function, then the function runs.  [World] is whatever the tool may
    read or change outside the program. *)
Section Registry.
Context {World : Type} {core : Core}.

Record BaseTool := mktool {
  name : string;
  invoke : Dict -> World -> Result Value * World
}.

(** A tool whose function touches nothing outside. *)
Definition tool (tool_name : string) (run : Dict -> Result Value) : BaseTool :=
  mktool tool_name (fun args w => (run args, w)).

Definition search_destinations_tool : BaseTool :=
  tool "search_destinations" (fun args =>
    Ok (fun query max_results => VList (search_destinations query max_results))
    <*> field "query" str_validator None args
    <*> field "max_results" int_validator (Some 5) args).

Definition get_weather_tool (cfg : Settings) : BaseTool :=
  tool "get_weather" (fun args =>
    Ok (get_weather cfg)
    <*> field "city" str_validator None args
    <*> field "date" str_validator None args).

Definition ALL_TOOLS (cfg : Settings) : list BaseTool :=
  [search_destinations_tool; get_weather_tool cfg].
End Registry.
Arguments BaseTool World : clear implicits.

End Tools.

(** ** The agent ([atlas.agents]) *)

Module Prompts.
Definition dquote : string := String (ascii_of_nat 34) EmptyString.

Definition SYSTEM_PROMPT : string :=
"You are **Atlas**, an expert AI travel assistant.

## Your mission
Help users plan detailed, personalised trips.  You have access to tools
for searching destinations, checking weather, and managing itineraries.
Use them proactively — don't guess when you can look things up.

## Itinerary format
When generating or refining a trip, produce a structured itinerary that
includes all of the following:

### Flights
- Suggest outbound and return flights with: airline, flight number,
  departure/arrival airports and times, duration, cabin class, and an
  estimated cost in USD.
- Flights are informational only — no booking in v1.

### Accommodation
- Suggest lodging with: property name, star rating, nightly rate,
  total cost for the stay, check-in/out dates, location, and a brief
  description.

### Daily activities
- Break each day into **time-blocked activities**.  Every activity must
  have a ``start_time`` (HH:MM) and ``end_time`` (HH:MM), a category
  (sightseeing, food, culture, adventure, or leisure), an
  ``estimated_cost_usd``, and a location label.
- Between consecutive activities, insert a **TravelSegment** with
  transit mode (walk / bus / train / taxi), estimated travel time in
  minutes, and a brief route description.
- At the end of each day, the sum of activity costs gives the daily
  estimate.

### Budget
- Total trip budget = flights + lodging + sum of daily estimates.
- Surface the total prominently.

## Personalisation
- At the start of each conversation, load the user's profile (when
  available) and use it to tailor destination suggestions, activity
  types, pacing, and budget.
- The user's **current request always takes priority** over profile
  defaults.
- When the user saves an itinerary, update their profile to learn from
  the new trip.

## Partial itineraries
- If the user provides days that are already planned, **preserve them
  exactly** and only generate the missing days.
- Ensure geographic and thematic continuity between user-supplied and
  generated days (no duplicate activities, logical travel flow).

## Activity notes
- For each activity, include an agent note with practical tips,
  official website links, Google Maps links, and source references.
- Note any transit concerns when getting from the previous activity
  to the current one (e.g. " ++ dquote ++ "40 min bus ride — different
  neighbourhood" ++ dquote ++ ").

## Tone & style
- Be concise, helpful, and enthusiastic about travel.
- Use markdown formatting where appropriate.
- If you are uncertain, say so and offer alternatives.
".
End Prompts.

(** *** Messages ([langchain_core.messages]) *)

Module Messages.

(** A tool call requested by the model. *)
Record ToolCall := mkcall {
  call_name : string;
  call_args : Dict;
  call_id : option string
}.

Inductive BaseMessage :=
| SystemMessage (content : string) (id : option string)
| HumanMessage (content : string) (id : option string)
| AIMessage (content : string) (tool_calls : list ToolCall) (id : option string)
| ToolMessage (content : string) (tool_call_id : option string)
    (name : option string) (id : option string).

Definition msg_id (m : BaseMessage) : option string :=
  match m with
  | SystemMessage _ i => i
  | HumanMessage _ i => i
  | AIMessage _ _ i => i
  | ToolMessage _ _ _ i => i
  end.

Definition msg_content (m : BaseMessage) : string :=
  match m with
  | SystemMessage c _ => c
  | HumanMessage c _ => c
  | AIMessage c _ _ => c
  | ToolMessage c _ _ _ => c
  end.

(** [isinstance(m, AIMessage)] *)
Definition is_ai (m : BaseMessage) : bool :=
  match m with AIMessage _ _ _ => true | _ => false end.

Definition is_system (m : BaseMessage) : bool :=
  match m with SystemMessage _ _ => true | _ => false end.

Definition is_human (m : BaseMessage) : bool :=
  match m with HumanMessage _ _ => true | _ => false end.

(** [m.tool_calls], empty for a message that is not an [AIMessage]. *)
Definition msg_tool_calls (m : BaseMessage) : list ToolCall :=
  match m with AIMessage _ calls _ => calls | _ => [] end.

Definition msg_tool_call_id (m : BaseMessage) : option string :=
  match m with ToolMessage _ i _ _ => i | _ => None end.

End Messages.

(** *** The graph runtime ([langgraph]) *)

Module LangGraph.
Import Messages.
Local Open Scope list_scope.

Definition START : string := "__start__".
Definition END : string := "__end__".

Inductive Exception :=
| IndexError
| KeyError (key : string)
| ValueError (message : string)
| ModelError (message : string)
| GraphRecursionError.

(** Lookup in a table keyed by strings (node names, edge sources). *)
Fixpoint assoc {A} (k : string) (l : list (string * A)) : option A :=
  match l with
  | [] => None
  | (k', a) :: l' => if String.eqb k k' then Some a else assoc k l'
  end.

(** [add_messages], the reducer of the [messages] channel: a message whose
    id is already in the list replaces the message with that id, any other
    message is appended.  A message without an id gets a fresh one from the
    reducer, which no other message has: it is always appended, and the
    fresh id itself is not recorded here. *)
Definition has_id (i : string) (m : BaseMessage) : bool :=
  match msg_id m with Some j => String.eqb i j | None => false end.

Fixpoint index_of_id (i : string) (l : list BaseMessage) (k : nat)
    (found : option nat) : option nat :=
  match l with
  | [] => found
  | m :: l' => index_of_id i l' (S k) (if has_id i m then Some k else found)
  end.

Definition merge_message (merged : list BaseMessage) (m : BaseMessage)
    : list BaseMessage :=
  match msg_id m with
  | None => merged ++ [m]
  | Some i =>
      match index_of_id i merged 0%nat None with
      | Some existing_idx => <[existing_idx := m]> merged
      | None => merged ++ [m]
      end
  end.

Definition add_messages (left right : list BaseMessage) : list BaseMessage :=
  fold_left merge_message right left.

(** The texts [ToolNode] puts into a [ToolMessage]: the rendering of a
    tool's return value, of an argument validation error, and of a request
    for a tool that does not exist. *)
Class ToolNodeText := {
  msg_content_output : Value -> string;
  tool_error_content : list ErrorDetails -> string;
  invalid_tool_content : string -> list string -> string
}.

Section Runtime.
Context {World : Type} {text : ToolNodeText}.

(** What was asked of the outside: the spy on the model and on the tools. *)
Inductive Call :=
| ModelCall (input : list BaseMessage)
| ToolRun (call : ToolCall).

(** A chat model: given the names of the tools bound to it and the
    messages, it answers with a message or raises; its answer may depend
    on the world. *)
Record BaseChatModel := mkllm {
  invoke : list string -> list BaseMessage -> World
           -> (Exception + BaseMessage) * World
}.

Definition bind_tools (llm : BaseChatModel) (tools : list (Tools.BaseTool World))
    : list BaseMessage -> World -> (Exception + BaseMessage) * World :=
  invoke llm (map Tools.name tools).

(** What a node returns: the update of the [messages] channel (or the
    exception it raised), the world afterwards, and the calls it made. *)
Record NodeOutput := mkout {
  update : Exception + list BaseMessage;
  world_after : World;
  performed : list Call
}.

Definition Node := list BaseMessage -> World -> NodeOutput.

(** [ToolNode]: one [ToolMessage] per requested call, in request order,
    carrying the id of its call. *)
Definition run_one (tools : list (Tools.BaseTool World)) (call : ToolCall)
    (w : World) : BaseMessage * World * list Call :=
  match find (fun t => String.eqb (call_name call) (Tools.name t)) (rev tools) with
  | None =>
      (ToolMessage (invalid_tool_content (call_name call) (map Tools.name tools))
         (call_id call) (Some (call_name call)) None,
       w, [])
  | Some t =>
      let '(r, w') := Tools.invoke t (call_args call) w in
      (ToolMessage
         (match r with
          | Ok v => msg_content_output v
          | Invalid errors => tool_error_content errors
          end)
         (call_id call) (Some (call_name call)) None,
       w', [ToolRun call])
  end.

Fixpoint run_calls (tools : list (Tools.BaseTool World)) (calls : list ToolCall)
    (w : World) : list BaseMessage * World * list Call :=
  match calls with
  | [] => ([], w, [])
  | c :: cs =>
      let '(m, w1, e1) := run_one tools c w in
      let '(ms, w2, e2) := run_calls tools cs w1 in
      (m :: ms, w2, e1 ++ e2)
  end.

Definition ToolNode (tools : list (Tools.BaseTool World)) : Node :=
  fun state w =>
    match last state with
    | Some (AIMessage _ calls _) =>
        let '(outputs, w', made) := run_calls tools calls w in
        mkout (inr outputs) w' made
    | Some _ => mkout (inl (ValueError "Last message is not an AIMessage")) w []
    | None => mkout (inl (ValueError "No message found in input")) w []
    end.

(** [StateGraph]: named nodes and the edges leaving them. *)
Inductive Edge :=
| EdgeTo (target : string)
| ConditionalEdges (path : list BaseMessage -> Exception + string)
    (path_map : list (string * string)).

Record StateGraph := mkgraph {
  nodes : list (string * Node);
  edges : list (string * Edge)
}.

Definition new_graph : StateGraph := mkgraph [] [].

Definition add_node (name : string) (action : Node) (g : StateGraph) : StateGraph :=
  mkgraph (nodes g ++ [(name, action)]) (edges g).

Definition add_edge (source target : string) (g : StateGraph) : StateGraph :=
  mkgraph (nodes g) (edges g ++ [(source, EdgeTo target)]).

Definition set_entry_point (name : string) (g : StateGraph) : StateGraph :=
  add_edge START name g.

Definition add_conditional_edges (source : string)
    (path : list BaseMessage -> Exception + string)
    (path_map : list (string * string)) (g : StateGraph) : StateGraph :=
  mkgraph (nodes g) (edges g ++ [(source, ConditionalEdges path path_map)]).

Definition compile (g : StateGraph) : StateGraph := g.

(** Where the run goes after node [source], given the channel. *)
Definition route (g : StateGraph) (source : string) (state : list BaseMessage)
    : Exception + string :=
  match assoc source (edges g) with
  | None => inr END
  | Some (EdgeTo target) => inr target
  | Some (ConditionalEdges path path_map) =>
      match path state with
      | inl e => inl e
      | inr r =>
          match assoc r path_map with
          | Some target => inr target
          | None => inl (KeyError r)
          end
      end
  end.

(** The state of a run: the [messages] channel, the node that ran last
    ([START] before the first), the world, and the calls made so far. *)
Record Pregel := mkpregel {
  channel : list BaseMessage;
  at_node : string;
  world : World;
  calls : list Call
}.

(** Run node [target] and reduce its update into the channel. *)
Definition exec (g : StateGraph) (target : string) (st : Pregel)
    : Exception + Pregel :=
  match assoc target (nodes g) with
  | None => inl (KeyError target)
  | Some node =>
      let out := node (channel st) (world st) in
      match update out with
      | inl e => inl e
      | inr messages =>
          inr (mkpregel (add_messages (channel st) messages) target
                 (world_after out) (calls st ++ performed out))
      end
  end.

(** The loop of the compiled graph: follow the edge out of the last node,
    stop at [END], otherwise run the node it leads to; at most
    [recursion_limit] nodes are run. *)
Fixpoint run (g : StateGraph) (recursion_limit : nat) (st : Pregel)
    : Exception + Pregel :=
  match route g (at_node st) (channel st) with
  | inl e => inl e
  | inr target =>
      if String.eqb target END then inr st
      else match recursion_limit with
           | O => inl GraphRecursionError
           | S n =>
               match exec g target st with
               | inl e => inl e
               | inr st' => run g n st'
               end
           end
  end.

(** The channel after every node that ran. *)
Fixpoint trajectory (g : StateGraph) (recursion_limit : nat) (st : Pregel)
    : list (list BaseMessage) :=
  match route g (at_node st) (channel st) with
  | inl _ => []
  | inr target =>
      if String.eqb target END then []
      else match recursion_limit with
           | O => []
           | S n =>
               match exec g target st with
               | inl _ => []
               | inr st' => channel st' :: trajectory g n st'
               end
           end
  end.

(** What a caller can see of a run: the messages and the calls made, or
    the exception. *)
Definition outcome (r : Exception + Pregel)
    : Exception + list BaseMessage * list Call :=
  match r with
  | inl e => inl e
  | inr st => inr (channel st, calls st)
  end.

(** A node whose update and calls do not depend on the world. *)
Definition deterministic_node (node : Node) : Prop :=
  forall state w w',
    update (node state w) = update (node state w')
    /\ performed (node state w) = performed (node state w').

(** Two states of a run that differ in the world only. *)
Definition same_run (a b : Pregel) : Prop :=
  channel a = channel b /\ at_node a = at_node b /\ calls a = calls b.

Definition same_step (a b : Exception + Pregel) : Prop :=
  match a, b with
  | inl e, inl e' => e = e'
  | inr st, inr st' => same_run st st'
  | _, _ => False
  end.

(** [graph.invoke({"messages": input})] *)
Definition graph_invoke (g : StateGraph) (recursion_limit : nat)
    (input : list BaseMessage) (w : World) : Exception + Pregel :=
  run g recursion_limit (mkpregel (add_messages [] input) START w []).

End Runtime.
Arguments BaseChatModel World : clear implicits.
Arguments Node World : clear implicits.
Arguments NodeOutput World : clear implicits.
Arguments StateGraph World : clear implicits.
Arguments Pregel World : clear implicits.
Arguments Edge : clear implicits.

End LangGraph.

(** *** The travel agent ([atlas.agents.travel_agent]) *)

Module TravelAgent.
Import Messages LangGraph Prompts.
Local Open Scope list_scope.

(** [AgentState]: the [messages] channel. *)
Definition AgentState := list BaseMessage.

(** [_should_continue]: [state["messages"][-1]] raises on an empty list. *)
Definition _should_continue (state : AgentState) : Exception + string :=
  match last state with
  | None => inl IndexError
  | Some last_message =>
      if is_ai last_message
         && match msg_tool_calls last_message with [] => false | _ => true end
      then inr "tools"%string
      else inr END
  end.

(** The message list [invoke_agent] hands to the graph. *)
Definition seed_messages (user_message : string)
    (chat_history : option (list BaseMessage)) : list BaseMessage :=
  let messages := [SystemMessage SYSTEM_PROMPT None] in
  let messages :=
    match chat_history with
    | Some (m :: h) => messages ++ (m :: h)
    | _ => messages
    end in
  messages ++ [HumanMessage user_message None].

Section Agent.
Context {World : Type} {core : Core} {text : ToolNodeText}.
(** The settings the tools read, and the step budget of [graph.invoke]. *)
Variable cfg : Config.Settings.
Variable recursion_limit : nat.

Definition agent_node
    (llm_with_tools : list BaseMessage -> World -> (Exception + BaseMessage) * World)
    : Node World :=
  fun state w =>
    let '(response, w') := llm_with_tools state w in
    mkout (match response with
           | inl e => inl e
           | inr r => inr [r]
           end)
          w' [ModelCall state].

Definition _make_agent_node (llm : BaseChatModel World) : Node World :=
  let llm_with_tools := bind_tools llm (Tools.ALL_TOOLS cfg) in
  agent_node llm_with_tools.

Definition build_travel_agent (llm : BaseChatModel World) : StateGraph World :=
  let agent := _make_agent_node llm in
  let tool_node := ToolNode (Tools.ALL_TOOLS cfg) in
  let graph := new_graph in
  let graph := add_node "agent" agent graph in
  let graph := add_node "tools" tool_node graph in
  let graph := set_entry_point "agent" graph in
  let graph :=
    add_conditional_edges "agent" _should_continue
      [("tools"%string, "tools"%string); (END, END)] graph in
  let graph := add_edge "tools" "agent" graph in
  compile graph.

Definition invoke_agent (llm : BaseChatModel World) (user_message : string)
    (chat_history : option (list BaseMessage)) (w : World)
    : Exception + BaseMessage :=
  let graph := build_travel_agent llm in
  let messages := seed_messages user_message chat_history in
  match graph_invoke graph recursion_limit messages w with
  | inl e => inl e
  | inr result =>
      match last (channel result) with
      | Some m => inr m
      | None => inl IndexError
      end
  end.

(** A model whose answer does not depend on the world, and a tool whose
    result does not. *)
Definition deterministic_model (llm : BaseChatModel World) : Prop :=
  forall bound messages w w',
    fst (invoke llm bound messages w) = fst (invoke llm bound messages w').

Definition deterministic_tool (t : Tools.BaseTool World) : Prop :=
  forall args w w', fst (Tools.invoke t args w) = fst (Tools.invoke t args w').

End Agent.

End TravelAgent.

(** ** Values used in the examples (from [tests/]) *)

Module Fixtures.
Import Messages LangGraph TravelAgent.

Definition kyoto : Dict := [("name", VStr "Kyoto"); ("country", VStr "Japan")].

(** [Itinerary(destination=..., start_date=date(2025, 4, 5),
    end_date=date(2025, 4, 5))] *)
Definition same_day_kwargs : Dict :=
  [("destination", VDict kyoto);
   ("start_date", VDate (mkdate 2025 4 5));
   ("end_date", VDate (mkdate 2025 4 5))].

(** [Itinerary(destination=..., start_date=date(2025, 4, 1),
    end_date=date(2025, 4, 6))] *)
Definition valid_kwargs : Dict :=
  [("destination", VDict kyoto);
   ("start_date", VDate (mkdate 2025 4 1));
   ("end_date", VDate (mkdate 2025 4 6))].

Definition clock : datetime := mkdatetime (mkdate 2025 1 1) 0 0 0 0 (Some 0).

Definition test_settings (weather_key : string) : Config.Settings :=
  Config.mksettings "test-key-not-real" "openai/gpt-4o"
    "https://openrouter.ai/api/v1" weather_key false "127.0.0.1" 8050.

(** [sample_itinerary] of [tests/conftest.py]. *)
Definition sample_destination : Destination.t :=
  Destination.mk "Kyoto" "Japan" (Some "KIX")
    (Some (35.0116%float, 135.7681%float)).

Definition sample_preferences : TripPreferences.t :=
  TripPreferences.mk 2 (Some 3000%float) ["temples"; "food"; "cherry blossom"] []
    TripPace.MODERATE.

Definition sample_activity : Activity.t :=
  Activity.mk "Fushimi Inari Shrine" "Walk the thousand torii gates."
    2.5%float ActivityCategory.SIGHTSEEING (Some "08:00") (Some "10:30")
    (Some 0%float) (Some "Fushimi Ward") None [].

Definition sample_itinerary : Itinerary.t :=
  Itinerary.mk sample_destination (mkdate 2025 4 1) (mkdate 2025 4 6)
    sample_preferences
    [ItineraryDay.mk (mkdate 2025 4 1) [sample_activity] [] "" DaySource.GENERATED]
    [] [] clock.

(** A rendering of tool results for the examples: JSON for the values the
    two tools return (strings, [None], lists and dicts; no escaping). *)
Fixpoint json_dumps (v : Value) : string :=
  match v with
  | VNone => "null"
  | VBool b => if b then "true" else "false"
  | VInt z => Tools.str_of_int z
  | VFloat _ => "<float>"
  | VStr s => Prompts.dquote ++ s ++ Prompts.dquote
  | VDate _ => "<date>"
  | VDatetime _ => "<datetime>"
  | VList l =>
      "[" ++ (fix items (l : list Value) : string :=
                match l with
                | [] => EmptyString
                | [x] => json_dumps x
                | x :: l' => json_dumps x ++ ", " ++ items l'
                end) l ++ "]"
  | VDict d =>
      "{" ++ (fix items (d : list (string * Value)) : string :=
                match d with
                | [] => EmptyString
                | [(k, x)] =>
                    Prompts.dquote ++ k ++ Prompts.dquote ++ ": " ++ json_dumps x
                | (k, x) :: d' =>
                    Prompts.dquote ++ k ++ Prompts.dquote ++ ": " ++ json_dumps x
                    ++ ", " ++ items d'
                end) d ++ "}"
  end.

Definition test_text : ToolNodeText := {|
  msg_content_output v := match v with VStr s => s | _ => json_dumps v end;
  tool_error_content errors :=
    "Error: " ++ Tools.str_of_int (Z.of_nat (length errors))
    ++ " validation error(s). Please fix your mistakes.";
  invalid_tool_content requested available :=
    "Error: " ++ requested ++ " is not a valid tool, try one of ["
    ++ String.concat ", " available ++ "]."
|}.

(** [mock_llm] of [tests/conftest.py]: always the same plain answer.  The
    world of the test doubles is the number of model calls made. *)
Definition mock_llm : BaseChatModel nat :=
  mkllm (fun _ _ n => (inr (AIMessage "Mock response from Atlas." [] None), S n)).

Definition weather_call : ToolCall :=
  mkcall "get_weather" [("city", VStr "Kyoto"); ("date", VStr "2025-04-01")]
    (Some "call_1").

(** A model that asks for the weather once and answers when it sees the
    tool result. *)
Definition scripted_llm : BaseChatModel nat :=
  mkllm (fun _ messages n =>
    match last messages with
    | Some (ToolMessage _ _ _ _) =>
        (inr (AIMessage "Pack an umbrella." [] None), S n)
    | _ => (inr (AIMessage EmptyString [weather_call] None), S n)
    end).

(** A model whose answer depends on the world. *)
Definition moody_llm : BaseChatModel nat :=
  mkllm (fun _ _ n =>
    (inr (AIMessage (if Nat.even n then "Yes." else "No.") [] None), S n)).

(** The error line a failed [end_after_start] produces. *)
Definition end_date_error : ErrorDetails :=
  mkerr "value_error" [LKey "end_date"]
    "Value error, end_date must be after start_date".

End Fixtures.

(** ** Loading and caching ([atlas.config], [atlas.llm.router]) *)

Module Process.
Import Config.

(** pydantic-core's validator for [bool] fields, of which nothing is
    assumed. *)
Class BoolCore := { bool_validator : Value -> Result bool }.

(** The handle [get_llm] builds: the arguments given to [ChatOpenAI]. *)
Record ChatOpenAI := mkchat {
  model : string;
  api_key : string;
  base_url : string;
  default_headers : list (string * string)
}.

(** The two [lru_cache(maxsize=1)] caches of the process. *)
Record Caches := mkcaches {
  settings_cache : option Settings;
  llm_cache : option ChatOpenAI
}.

Definition empty_caches : Caches := mkcaches None None.

Section Loading.
Context {core : Core} {bools : BoolCore}.

(** [Settings()]: every field from the environment (the variables of the
    process over the [.env] file).  [env] holds each variable under its
    lower-cased name, as [case_sensitive=False] has them matched; names
    other than the seven fields are ignored. *)
Definition Settings_load (env : Dict) : Result Settings :=
  Ok mksettings
  <*> field "openrouter_api_key" str_validator None env
  <*> field "atlas_llm_model" str_validator (Some "openai/gpt-4o") env
  <*> field "openrouter_base_url" str_validator
        (Some "https://openrouter.ai/api/v1") env
  <*> field "atlas_weather_api_key" str_validator (Some EmptyString) env
  <*> field "atlas_debug" bool_validator (Some false) env
  <*> field "atlas_host" str_validator (Some "127.0.0.1") env
  <*> field "atlas_port" int_validator (Some 8050) env.

(** [get_settings()], under [lru_cache(maxsize=1)]: a cached value is
    returned without reading the environment; a computed value is cached;
    an exception is not. *)
Definition get_settings (env : Dict) (caches : Caches)
    : Result Settings * Caches :=
  match settings_cache caches with
  | Some cfg => (Ok cfg, caches)
  | None =>
      match Settings_load env with
      | Ok cfg => (Ok cfg, mkcaches (Some cfg) (llm_cache caches))
      | Invalid errors => (Invalid errors, caches)
      end
  end.

(** [get_settings.cache_clear()] *)
Definition settings_cache_clear (caches : Caches) : Caches :=
  mkcaches None (llm_cache caches).

(** [get_llm()], under its own [lru_cache(maxsize=1)]. *)
Definition get_llm (env : Dict) (caches : Caches) : Result ChatOpenAI * Caches :=
  match llm_cache caches with
  | Some llm => (Ok llm, caches)
  | None =>
      let '(r, caches') := get_settings env caches in
      match r with
      | Ok cfg =>
          let llm :=
            mkchat (atlas_llm_model cfg) (openrouter_api_key cfg)
              (openrouter_base_url cfg)
              [("HTTP-Referer", "https://github.com/atlas-travel-assistant");
               ("X-Title", "Atlas Travel Assistant")] in
          (Ok llm, mkcaches (settings_cache caches') (Some llm))
      | Invalid errors => (Invalid errors, caches')
      end
  end.

(** [get_llm.cache_clear()] *)
Definition llm_cache_clear (caches : Caches) : Caches :=
  mkcaches (settings_cache caches) None.

End Loading.

End Process.

(** ** Conditions on a run of the agent graph *)

Module Conditions.
Import Messages LangGraph TravelAgent.

(** A message the reducer appends: it has no id, or an id that no message
    of the state has. *)
Definition fresh_for (state : list BaseMessage) (m : BaseMessage) : Prop :=
  forall i, msg_id m = Some i -> Forall (fun m' => has_id i m' = false) state.

(** A model that answers with [AIMessage]s only, each fresh for the
    messages it was given. *)
Definition answers_fresh_ai {World : Type} (llm : BaseChatModel World) : Prop :=
  forall bound messages w answer,
    fst (invoke llm bound messages w) = inr answer ->
    is_ai answer = true /\ fresh_for messages answer.

(** The states a run started by [graph.invoke] passes through: before the
    first node; after the agent node, with the answer of the model last;
    after the tool node. *)
Definition reachable {World : Type} (st : Pregel World) : Prop :=
  at_node st = START
  \/ (at_node st = "agent"%string /\ channel st <> [])
  \/ at_node st = "tools"%string.

(** The same, when moreover the message that is last after the agent node
    is an [AIMessage]. *)
Definition reachable_ai {World : Type} (st : Pregel World) : Prop :=
  at_node st = START
  \/ (at_node st = "agent"%string
      /\ exists m, last (channel st) = Some m /\ is_ai m = true)
  \/ at_node st = "tools"%string.

(** What a run from a reachable state ends in: the step budget ran out or
    the model raised; or the run stopped after the agent node, on a state
    the routing function sends to [END]. *)
Definition run_safe {World : Type} {core : Core} (cfg : Config.Settings)
    (llm : BaseChatModel World) (r : Exception + Pregel World) : Prop :=
  match r with
  | inl e =>
      e = GraphRecursionError
      \/ exists state w,
           fst (bind_tools llm (Tools.ALL_TOOLS cfg) state w) = inl e
  | inr result =>
      at_node result = "agent"%string /\ channel result <> []
      /\ _should_continue (channel result) = inr END
  end.

End Conditions.

(** ** More values for the examples *)

Module Environments.
Import Process.

Definition native_bools : BoolCore := {|
  bool_validator v :=
    match v with
    | VBool b => Ok b
    | _ => type_error "bool_type" "Input should be a valid boolean"
    end
|}.

(** The environment of the test suite: only [OPENROUTER_API_KEY] is set. *)
Definition test_env : Dict := [("openrouter_api_key", VStr "test-key-not-real")].

Definition other_env : Dict :=
  [("openrouter_api_key", VStr "another-key");
   ("atlas_llm_model", VStr "anthropic/claude-3-5-sonnet")].

(** A model whose call raises. *)
Definition failing_llm : LangGraph.BaseChatModel nat :=
  LangGraph.mkllm (fun _ _ n => (inl (LangGraph.ModelError "timeout"), S n)).

End Environments.

(** * Properties *)

Import Fixtures.

(** ** Dates *)

Lemma date_cmp_antisym (a b : date) : date_cmp b a = CompOpp (date_cmp a b).
Proof.
  unfold date_cmp.
  rewrite (Z.compare_antisym (year a) (year b)).
  rewrite (Z.compare_antisym (month a) (month b)).
  rewrite (Z.compare_antisym (day a) (day b)).
  destruct (year a ?= year b); simpl; try reflexivity.
  destruct (month a ?= month b); simpl; reflexivity.
Qed.

(** [a > b] is the negation of [a <= b]. *)
Lemma date_gt_not_le (a b : date) : date_gt a b = negb (date_le a b).
Proof.
  unfold date_gt, date_lt, date_le. rewrite (date_cmp_antisym a b).
  destruct (date_cmp a b); reflexivity.
Qed.

Example date_le_across_months : date_le (mkdate 2025 3 31) (mkdate 2025 4 1) = true.
Proof. reflexivity. Qed.

Example date_gt_same_day : date_gt (mkdate 2025 4 5) (mkdate 2025 4 5) = false.
Proof. reflexivity. Qed.

(** ** Validation helpers *)

Lemma field_present {A} (name : string) (f : Value -> Result A)
    (default : option A) (data : Dict) (v : Value) :
  dict_get name data = Some v ->
  field name f default data = with_loc (LKey name) (f v).
Proof. intros E. unfold field. rewrite E. reflexivity. Qed.

Lemma field_absent {A} (name : string) (f : Value -> Result A)
    (a : A) (data : Dict) :
  dict_get name data = None -> field name f (Some a) data = Ok a.
Proof. intros E. unfold field. rewrite E. reflexivity. Qed.

(** A required field followed by an after-validator: the validator runs
    on the type-checked value, and its errors are located at the field. *)
Lemma field_after {A} (name : string) (f : Value -> Result A)
    (after : A -> Result A) (data : Dict) :
  field name (fun v => bind (f v) after) None data
  = match field name f None data with
    | Ok a => with_loc (LKey name) (after a)
    | Invalid e => Invalid e
    end.
Proof.
  unfold field. destruct (dict_get name data) as [v|]; [|reflexivity].
  destruct (f v); reflexivity.
Qed.

(** ** Itinerary: [end_date] after [start_date] *)

Section ItineraryValidation.
Context {core : Core}.
Variable now : datetime.

(** C1.  Construction of an [Itinerary] from keyword arguments of which
    every field passes its type validation: when [end_date <= start_date]
    it fails with the single error located at [end_date] whose message is
    "Value error, end_date must be after start_date"; when
    [end_date > start_date] it succeeds, and the instance holds these two
    dates, so that its [end_date > start_date]. *)
Theorem itinerary_end_after_start
    (data : Dict) (dest : Destination.t) (sd ed : date)
    (prefs : TripPreferences.t) (ds : list ItineraryDay.t)
    (fl : list Flight.t) (acc : list Accommodation.t) (created : datetime) :
  field "destination" Destination.model_validate None data = Ok dest ->
  field "start_date" date_validator None data = Ok sd ->
  field "end_date" date_validator None data = Ok ed ->
  field "preferences" TripPreferences.model_validate
    (Some TripPreferences.default) data = Ok prefs ->
  field "days" (list_validator ItineraryDay.model_validate) (Some []) data = Ok ds ->
  field "flights" (list_validator Flight.model_validate) (Some []) data = Ok fl ->
  field "accommodations" (list_validator Accommodation.model_validate)
    (Some []) data = Ok acc ->
  field "created_at" datetime_validator (Some now) data = Ok created ->
  (date_le ed sd = true ->
     Itinerary.validate_fields now data = Invalid [end_date_error])
  /\ (date_gt ed sd = true ->
        exists it,
          Itinerary.validate_fields now data = Ok it
          /\ Itinerary.start_date it = sd /\ Itinerary.end_date it = ed
          /\ date_gt (Itinerary.end_date it) (Itinerary.start_date it) = true).
Proof.
  intros Hdest Hsd Hed Hprefs Hds Hfl Hacc Hcreated.
  unfold Itinerary.validate_fields.
  rewrite field_after, Hdest, Hsd, Hed, Hprefs, Hds, Hfl, Hacc, Hcreated.
  unfold Itinerary.end_after_start. simpl Itinerary.data_start_date.
  split.
  - intros Hle. rewrite Hle. reflexivity.
  - intros Hgt. pose proof (date_gt_not_le ed sd) as E. rewrite Hgt in E.
    destruct (date_le ed sd); [discriminate|].
    eexists. split; [reflexivity|]. simpl. auto.
Qed.

End ItineraryValidation.

(** C1 at the two constructions of [tests/domain/test_models.py]. *)
Lemma itinerary_end_after_start_witness :
  Itinerary.validate_fields (core := native_core) clock same_day_kwargs
  = Invalid [end_date_error]
  /\ exists it,
       Itinerary.validate_fields (core := native_core) clock valid_kwargs = Ok it
       /\ Itinerary.start_date it = mkdate 2025 4 1
       /\ Itinerary.end_date it = mkdate 2025 4 6
       /\ date_gt (Itinerary.end_date it) (Itinerary.start_date it) = true.
Proof.
  split.
  - apply (proj1 (itinerary_end_after_start (core := native_core) clock
                    same_day_kwargs _ _ _ _ _ _ _ _
                    eq_refl eq_refl eq_refl eq_refl eq_refl eq_refl eq_refl eq_refl)).
    reflexivity.
  - apply (proj2 (itinerary_end_after_start (core := native_core) clock
                    valid_kwargs _ _ _ _ _ _ _ _
                    eq_refl eq_refl eq_refl eq_refl eq_refl eq_refl eq_refl eq_refl)).
    reflexivity.
Defined.

(** ** TripPreferences: what the constructor checks *)



(** ** Attribute assignment *)

Import BaseModel.

(** The classes whose body sets [frozen=True]. *)
Lemma frozen_classes (c : ModelClass) :
  frozen (model_config c) = true
  <-> In c [ActivityNote; Activity; TravelSegment; ItineraryDay; Flight;
            Accommodation].
Proof.
  split.
  - destruct c; simpl; intros E; try discriminate; tauto.
  - simpl. intros [E|[E|[E|[E|[E|[E|[]]]]]]]; subst c; reflexivity.
Qed.

Lemma field_names_are_public (c : ModelClass) (name : string) :
  is_field c name = true -> is_valid_field_name name = true.
Proof.
  unfold is_field. rewrite existsb_exists. intros [f [Hin E]].
  apply String.eqb_eq in E. subst f.
  destruct c; simpl in Hin;
    repeat (destruct Hin as [<-|Hin]; [reflexivity|]); destruct Hin.
Qed.

(** C5, as stated, fails for [Destination]: assigning to [name] is
    accepted and changes the instance. *)
Lemma destination_assignment_accepted :
  let d := instance_of Destination
             (Destination.model_dump (core := native_core)
                (Destination.mk "Kyoto" "Japan" None None)) in
  is_field Destination "name" = true
  /\ setattr d "name" (VStr "Osaka")
     = (inr tt,
        instance_of Destination
          (Destination.model_dump (core := native_core)
             (Destination.mk "Osaka" "Japan" None None)))
  /\ snd (setattr d "name" (VStr "Osaka")) <> d.
Proof.
  simpl. split; [reflexivity|]. split; [reflexivity|].
  vm_compute. discriminate.
Qed.

(** Every field of every [Destination] can be assigned. *)
Lemma destination_fields_assignable
    (self : Instance) (name : string) (value : Value) :
  cls self = Destination ->
  is_field Destination name = true ->
  setattr self name value
  = (inr tt, mkinstance Destination (dict_set name value (attrs self))).
Proof.
  intros Hc Hf. unfold setattr. rewrite Hc.
  rewrite (field_names_are_public _ _ Hf). simpl. rewrite Hf. reflexivity.
Qed.

(** C5, amended.  For every instance of [Activity], [ActivityNote],
    [TravelSegment], [ItineraryDay], [Flight] or [Accommodation], every
    assignment to a field is rejected with the frozen-instance error and
    leaves the instance as it was.  ([Destination] is not among them: its
    class is not frozen.) *)
Theorem frozen_models_reject_assignment
    (self : Instance) (name : string) (value : Value) :
  In (cls self) [ActivityNote; Activity; TravelSegment; ItineraryDay; Flight;
                 Accommodation] ->
  is_field (cls self) name = true ->
  setattr self name value = (inl FrozenInstance, self).
Proof.
  intros Hc Hf. apply frozen_classes in Hc.
  unfold setattr.
  rewrite (field_names_are_public _ _ Hf). simpl. rewrite Hc. reflexivity.
Qed.

(** C5 on the activity of [tests/domain/test_models.py]:
    [act.title = "Changed"]. *)
Lemma frozen_models_reject_assignment_witness :
  let act := instance_of Activity
               (Activity.model_dump (core := native_core)
                  (Activity.mk "Temple visit" "Explore the temple." 2%float
                     ActivityCategory.CULTURE None None None None None [])) in
  setattr act "title" (VStr "Changed") = (inl FrozenInstance, act).
Proof.
  intros act.
  apply (frozen_models_reject_assignment act "title" (VStr "Changed")).
  - simpl. tauto.
  - reflexivity.
Defined.

(** ** Serialization followed by validation *)

Section RoundTrip.
Context {core : Core}.

Lemma items_roundtrip {A} (dump : A -> Value) (validate : Value -> Result A)
    (ok : A -> bool) (l : list A) (i : nat) :
  (forall a, ok a = true -> validate (dump a) = Ok a) ->
  forallb ok l = true ->
  items_validator validate i (map dump l) = Ok l.
Proof.
  intros Hrt. revert i. induction l as [|a l IH]; intros i Hall; simpl.
  - reflexivity.
  - simpl in Hall. apply andb_prop in Hall as [Ha Hl].
    rewrite (Hrt a Ha), (IH (S i) Hl). reflexivity.
Qed.

Lemma list_roundtrip {A} (dump : A -> Value) (validate : Value -> Result A)
    (ok : A -> bool) (l : list A) :
  (forall a, ok a = true -> validate (dump a) = Ok a) ->
  forallb ok l = true ->
  list_validator validate (list_serializer dump l) = Ok l.
Proof. intros Hrt Hall. apply (items_roundtrip dump validate ok l 0 Hrt Hall). Qed.

Lemma forallb_always {A} (l : list A) : forallb (fun _ => true) l = true.
Proof. induction l; simpl; auto. Qed.

Lemma str_list_roundtrip (l : list string) :
  list_validator str_validator (list_serializer VStr l) = Ok l.
Proof.
  apply (list_roundtrip VStr str_validator (fun _ => true)).
  - intros s _. apply str_native.
  - apply forallb_always.
Qed.

Lemma str_opt_roundtrip (o : option string) :
  nullable_validator str_validator (nullable_serializer VStr o) = Ok o.
Proof. destruct o as [s|]; simpl; [rewrite str_native|]; reflexivity. Qed.

Lemma float_opt_roundtrip (o : option float) :
  finite_opt o = true ->
  nullable_validator float_validator (nullable_serializer float_serializer o)
  = Ok o.
Proof.
  destruct o as [f|]; simpl; [|reflexivity]. intros Hf.
  pose proof (float_serialized_not_none f Hf) as Hn.
  pose proof (float_serialized f Hf) as Hv.
  destruct (float_serializer f); try congruence; simpl; rewrite Hv; reflexivity.
Qed.

Lemma coordinates_roundtrip (o : option (float * float)) :
  finite_coordinates o = true ->
  nullable_validator (pair_validator float_validator)
    (nullable_serializer (pair_serializer float_serializer) o) = Ok o.
Proof.
  destruct o as [[lat lon]|]; simpl; [|reflexivity]. intros H.
  apply andb_prop in H as [Hlat Hlon].
  rewrite (float_serialized lat Hlat), (float_serialized lon Hlon). reflexivity.
Qed.

Lemma activity_category_roundtrip (e : ActivityCategory.t) :
  enum_validator ActivityCategory.of_value (VStr (ActivityCategory.value e)) = Ok e.
Proof. destruct e; reflexivity. Qed.

Lemma trip_pace_roundtrip (e : TripPace.t) :
  enum_validator TripPace.of_value (VStr (TripPace.value e)) = Ok e.
Proof. destruct e; reflexivity. Qed.

Lemma transit_mode_roundtrip (e : TransitMode.t) :
  enum_validator TransitMode.of_value (VStr (TransitMode.value e)) = Ok e.
Proof. destruct e; reflexivity. Qed.

Lemma day_source_roundtrip (e : DaySource.t) :
  enum_validator DaySource.of_value (VStr (DaySource.value e)) = Ok e.
Proof. destruct e; reflexivity. Qed.

Lemma note_author_roundtrip (e : NoteAuthor.t) :
  enum_validator NoteAuthor.of_value (VStr (NoteAuthor.value e)) = Ok e.
Proof. destruct e; reflexivity. Qed.

(** Split a well-formedness hypothesis into its conjuncts. *)
Ltac split_wf H :=
  repeat match type of H with
         | (_ && _) = true =>
             let H1 := fresh "Hwf" in
             apply andb_prop in H as [H H1]
         end.

(** Look every field up in the dumped dict. *)
Ltac lookup_fields :=
  repeat (erewrite field_present by reflexivity).

Lemma trip_preferences_roundtrip (x : TripPreferences.t) :
  TripPreferences.wf x = true ->
  TripPreferences.model_validate (TripPreferences.model_dump x) = Ok x.
Proof.
  destruct x. unfold TripPreferences.wf. simpl. intros Hwf.
  unfold TripPreferences.model_validate, TripPreferences.model_dump,
    model_validator, TripPreferences.validate_fields. simpl.
  lookup_fields.
  rewrite int_native, (float_opt_roundtrip _ Hwf), !str_list_roundtrip,
    trip_pace_roundtrip.
  reflexivity.
Qed.

Lemma destination_roundtrip (x : Destination.t) :
  Destination.wf x = true ->
  Destination.model_validate (Destination.model_dump x) = Ok x.
Proof.
  destruct x. unfold Destination.wf. simpl. intros Hwf.
  unfold Destination.model_validate, Destination.model_dump,
    model_validator, Destination.validate_fields. simpl.
  lookup_fields.
  rewrite !str_native, str_opt_roundtrip, (coordinates_roundtrip _ Hwf).
  reflexivity.
Qed.

Lemma activity_note_roundtrip (x : ActivityNote.t) :
  ActivityNote.model_validate (ActivityNote.model_dump x) = Ok x.
Proof.
  destruct x.
  unfold ActivityNote.model_validate, ActivityNote.model_dump,
    model_validator, ActivityNote.validate_fields. simpl.
  lookup_fields.
  rewrite note_author_roundtrip, str_native, !str_list_roundtrip.
  reflexivity.
Qed.

Lemma activity_roundtrip (x : Activity.t) :
  Activity.wf x = true ->
  Activity.model_validate (Activity.model_dump x) = Ok x.
Proof.
  destruct x. unfold Activity.wf. simpl. intros Hwf. split_wf Hwf.
  unfold Activity.model_validate, Activity.model_dump,
    model_validator, Activity.validate_fields. simpl.
  lookup_fields.
  rewrite !str_native, (float_serialized _ Hwf), activity_category_roundtrip,
    !str_opt_roundtrip, (float_opt_roundtrip _ Hwf1),
    (coordinates_roundtrip _ Hwf0).
  rewrite (list_roundtrip ActivityNote.model_dump ActivityNote.model_validate
             (fun _ => true));
    [reflexivity | intros a _; apply activity_note_roundtrip | apply forallb_always].
Qed.

Lemma travel_segment_roundtrip (x : TravelSegment.t) :
  TravelSegment.wf x = true ->
  TravelSegment.model_validate (TravelSegment.model_dump x) = Ok x.
Proof.
  destruct x. unfold TravelSegment.wf. simpl. intros Hwf.
  unfold TravelSegment.model_validate, TravelSegment.model_dump,
    model_validator, TravelSegment.validate_fields. simpl.
  lookup_fields.
  rewrite transit_mode_roundtrip, int_native, str_native,
    (float_opt_roundtrip _ Hwf).
  reflexivity.
Qed.

Lemma itinerary_day_roundtrip (x : ItineraryDay.t) :
  ItineraryDay.wf x = true ->
  ItineraryDay.model_validate (ItineraryDay.model_dump x) = Ok x.
Proof.
  destruct x. unfold ItineraryDay.wf. simpl. intros Hwf. split_wf Hwf.
  unfold ItineraryDay.model_validate, ItineraryDay.model_dump,
    model_validator, ItineraryDay.validate_fields. simpl.
  lookup_fields.
  rewrite (date_serialized _ Hwf), str_native, day_source_roundtrip.
  rewrite (list_roundtrip Activity.model_dump Activity.model_validate
             Activity.wf _ activity_roundtrip Hwf1).
  rewrite (list_roundtrip TravelSegment.model_dump TravelSegment.model_validate
             TravelSegment.wf _ travel_segment_roundtrip Hwf0).
  reflexivity.
Qed.

Lemma flight_roundtrip (x : Flight.t) :
  Flight.wf x = true ->
  Flight.model_validate (Flight.model_dump x) = Ok x.
Proof.
  destruct x. unfold Flight.wf. simpl. intros Hwf. split_wf Hwf.
  unfold Flight.model_validate, Flight.model_dump,
    model_validator, Flight.validate_fields. simpl.
  lookup_fields.
  rewrite !str_native, (datetime_serialized _ Hwf), (datetime_serialized _ Hwf2),
    (float_serialized _ Hwf1), (float_opt_roundtrip _ Hwf0).
  reflexivity.
Qed.

Lemma accommodation_roundtrip (x : Accommodation.t) :
  Accommodation.wf x = true ->
  Accommodation.model_validate (Accommodation.model_dump x) = Ok x.
Proof.
  destruct x. unfold Accommodation.wf. simpl. intros Hwf. split_wf Hwf.
  unfold Accommodation.model_validate, Accommodation.model_dump,
    model_validator, Accommodation.validate_fields. simpl.
  lookup_fields.
  rewrite !str_native, (float_opt_roundtrip _ Hwf), (float_opt_roundtrip _ Hwf4),
    (float_opt_roundtrip _ Hwf3), (date_serialized _ Hwf2),
    (date_serialized _ Hwf1), str_opt_roundtrip, (coordinates_roundtrip _ Hwf0).
  reflexivity.
Qed.

Lemma chat_message_roundtrip (now : datetime) (x : ChatMessage.t) :
  ChatMessage.wf x = true ->
  ChatMessage.model_validate now (ChatMessage.model_dump x) = Ok x.
Proof.
  destruct x. unfold ChatMessage.wf. simpl. intros Hwf.
  unfold ChatMessage.model_validate, ChatMessage.model_dump,
    model_validator, ChatMessage.validate_fields. simpl.
  lookup_fields.
  rewrite !str_native, (datetime_serialized _ Hwf).
  reflexivity.
Qed.

Lemma user_profile_roundtrip (now : datetime) (x : UserProfile.t) :
  UserProfile.wf x = true ->
  UserProfile.model_validate now (UserProfile.model_dump x) = Ok x.
Proof.
  destruct x. unfold UserProfile.wf. simpl. intros Hwf. split_wf Hwf.
  unfold UserProfile.model_validate, UserProfile.model_dump,
    model_validator, UserProfile.validate_fields. simpl.
  lookup_fields.
  rewrite !str_list_roundtrip, trip_pace_roundtrip, (float_opt_roundtrip _ Hwf),
    int_native, (datetime_serialized _ Hwf0).
  reflexivity.
Qed.

(** The validator of [end_date] runs again on the dumped itinerary and
    passes because the instance ends after it starts. *)
Lemma itinerary_roundtrip (now : datetime) (x : Itinerary.t) :
  Itinerary.wf x = true ->
  Itinerary.model_validate now (Itinerary.model_dump x) = Ok x.
Proof.
  destruct x. unfold Itinerary.wf. simpl. intros Hwf. split_wf Hwf.
  unfold Itinerary.model_validate, Itinerary.model_dump,
    model_validator, Itinerary.validate_fields.
  rewrite field_after.
  lookup_fields.
  rewrite (destination_roundtrip _ Hwf), (date_serialized _ Hwf7),
    (date_serialized _ Hwf6), (trip_preferences_roundtrip _ Hwf5),
    (datetime_serialized _ Hwf1).
  rewrite (list_roundtrip ItineraryDay.model_dump ItineraryDay.model_validate
             ItineraryDay.wf _ itinerary_day_roundtrip Hwf4).
  rewrite (list_roundtrip Flight.model_dump Flight.model_validate
             Flight.wf _ flight_roundtrip Hwf3).
  rewrite (list_roundtrip Accommodation.model_dump Accommodation.model_validate
             Accommodation.wf _ accommodation_roundtrip Hwf2).
  simpl. unfold Itinerary.end_after_start. simpl.
  rewrite date_gt_not_le in Hwf0. apply negb_true_iff in Hwf0.
  rewrite Hwf0. reflexivity.
Qed.

(** C7.  For every well-formed instance of a domain model (dates that are
    calendar dates, finite floats, and for an itinerary [end_date] after
    [start_date]), validating its dumped form as its own class gives back
    the instance itself, equal in every field and in every nested list. *)
Theorem model_dump_validate_roundtrip (now : datetime) (e : Entity.t) :
  Entity.wf e = true ->
  Entity.model_validate now (Entity.class_of e) (Entity.model_dump e) = Ok e.
Proof.
  destruct e as [x|x|x|x|x|x|x|x|x|x|x];
    cbn [Entity.wf Entity.class_of Entity.model_dump Entity.model_validate];
    intros Hwf.
  - rewrite (trip_preferences_roundtrip x Hwf). reflexivity.
  - rewrite (destination_roundtrip x Hwf). reflexivity.
  - rewrite (activity_note_roundtrip x). reflexivity.
  - rewrite (activity_roundtrip x Hwf). reflexivity.
  - rewrite (travel_segment_roundtrip x Hwf). reflexivity.
  - rewrite (itinerary_day_roundtrip x Hwf). reflexivity.
  - rewrite (flight_roundtrip x Hwf). reflexivity.
  - rewrite (accommodation_roundtrip x Hwf). reflexivity.
  - rewrite (itinerary_roundtrip now x Hwf). reflexivity.
  - rewrite (chat_message_roundtrip now x Hwf). reflexivity.
  - rewrite (user_profile_roundtrip now x Hwf). reflexivity.
Qed.

End RoundTrip.

(** C7 on [sample_itinerary]: it survives the round trip, the title of
    its one activity included. *)
Lemma model_dump_validate_roundtrip_witness :
  Entity.wf (Entity.OfItinerary sample_itinerary) = true
  /\ Entity.model_validate (core := native_core) clock BaseModel.Itinerary
       (Entity.model_dump (core := native_core) (Entity.OfItinerary sample_itinerary))
     = Ok (Entity.OfItinerary sample_itinerary).
Proof.
  split; [reflexivity|].
  apply (model_dump_validate_roundtrip (core := native_core) clock
           (Entity.OfItinerary sample_itinerary)).
  reflexivity.
Defined.

(** ** Tools *)

Import Config Tools.

Example title_example : title "temples in kyoto" = "Temples In Kyoto".
Proof. reflexivity. Qed.

Example title_mixed_case : title "bEACH towns, can't miss" = "Beach Towns, Can'T Miss".
Proof. reflexivity. Qed.



(** Through the [@tool] wrapper: a call with string arguments reaches the
    function and comes back as a result, under every core. *)
Lemma get_weather_tool_invoke {World : Type} (core : Core)
    (cfg : Settings) (city date : string) (w : World) :
  invoke (get_weather_tool (core := core) cfg)
    [("city", VStr city); ("date", VStr date)] w
  = (Ok (get_weather cfg city date), w).
Proof.
  unfold get_weather_tool, tool. cbn [invoke].
  erewrite !field_present by reflexivity.
  rewrite !str_native. reflexivity.
Qed.


Example search_destinations_example :
  search_destinations "temples in Kyoto" (-3)
  = [VDict [("name", VStr "Temples In Kyoto");
            ("country", VStr "Unknown");
            ("description",
             VStr "Search results for 'temples in Kyoto' — integration pending.");
            ("coordinates", VNone);
            ("note",
             VStr "Destination search integration pending — placeholder data.")]].
Proof. reflexivity. Qed.

(** ** The agent graph *)

Import Messages LangGraph TravelAgent Prompts.
Local Open Scope list_scope.

Example should_continue_plain_message :
  _should_continue [AIMessage "Here's your itinerary." [] None] = inr "__end__"%string.
Proof. reflexivity. Qed.

Example should_continue_tool_calls :
  _should_continue [AIMessage EmptyString [weather_call] None] = inr "tools"%string.
Proof. reflexivity. Qed.

(** The routing function, case by case on the last message. *)
Lemma should_continue_last (state : AgentState) (m : BaseMessage) :
  last state = Some m ->
  _should_continue state
  = inr (if is_ai m && match msg_tool_calls m with [] => false | _ => true end
         then "tools"%string else END).
Proof.
  intros E. unfold _should_continue. rewrite E.
  destruct (is_ai m && _); reflexivity.
Qed.

Lemma should_continue_tools (state : AgentState) :
  _should_continue state = inr "tools"%string ->
  exists c calls i, last state = Some (AIMessage c calls i) /\ calls <> [].
Proof.
  unfold _should_continue. destruct (last state) as [m|]; [|discriminate].
  destruct m as [c i|c i|c calls i|c t n i]; simpl; try discriminate.
  destruct calls as [|call calls]; [discriminate|].
  intros _. exists c, (call :: calls), i. split; [reflexivity|discriminate].
Qed.

Section AgentGraph.
Context {World : Type} {core : Core} {text : ToolNodeText}.
Variable cfg : Settings.
Variable recursion_limit : nat.

(** C3.  The message list [invoke_agent] hands to the graph is the system
    message holding [SYSTEM_PROMPT], then the chat history in its order
    (nothing when the history is [None] or empty), then the user message;
    and [invoke_agent] is the graph invoked on exactly that list. *)
Theorem invoke_agent_seed (llm : BaseChatModel World) (user_message : string)
    (chat_history : option (list BaseMessage)) (w : World) :
  let history := match chat_history with Some h => h | None => [] end in
  seed_messages user_message chat_history
  = SystemMessage SYSTEM_PROMPT None :: history ++ [HumanMessage user_message None]
  /\ invoke_agent cfg recursion_limit llm user_message chat_history w
     = match graph_invoke (build_travel_agent cfg llm) recursion_limit
               (SystemMessage SYSTEM_PROMPT None
                :: history ++ [HumanMessage user_message None]) w with
       | inl e => inl e
       | inr result =>
           match last (channel result) with
           | Some m => inr m
           | None => inl IndexError
           end
       end.
Proof.
  assert (E : seed_messages user_message chat_history
              = SystemMessage SYSTEM_PROMPT None
                :: match chat_history with Some h => h | None => [] end
                   ++ [HumanMessage user_message None]).
  { unfold seed_messages. destruct chat_history as [[|m h]|]; reflexivity. }
  simpl. split; [exact E|].
  unfold invoke_agent. rewrite E. reflexivity.
Qed.

(** The edges of the graph [build_travel_agent] assembles. *)
Lemma route_from_start (llm : BaseChatModel World) (state : AgentState) :
  route (build_travel_agent cfg llm) START state = inr "agent"%string.
Proof. reflexivity. Qed.

Lemma route_from_agent (llm : BaseChatModel World) (state : AgentState) :
  route (build_travel_agent cfg llm) "agent" state
  = match _should_continue state with
    | inl e => inl e
    | inr r => inr r
    end.
Proof.
  unfold route. simpl. unfold _should_continue.
  destruct (last state) as [m|]; [|reflexivity].
  destruct (is_ai m && _); reflexivity.
Qed.

Lemma route_from_tools (llm : BaseChatModel World) (state : AgentState) :
  route (build_travel_agent cfg llm) "tools" state = inr "agent"%string.
Proof. reflexivity. Qed.

Lemma route_to_tools (llm : BaseChatModel World) (source : string)
    (state : AgentState) :
  route (build_travel_agent cfg llm) source state = inr "tools"%string ->
  source = "agent"%string /\ _should_continue state = inr "tools"%string.
Proof.
  unfold route. simpl.
  destruct (String.eqb_spec source START) as [->|_]; [discriminate|].
  destruct (String.eqb_spec source "agent") as [->|_].
  - intros H. split; [reflexivity|].
    destruct (_should_continue state) as [e|r] eqn:E; [discriminate|].
    unfold _should_continue in E. destruct (last state) as [m|]; [|discriminate].
    destruct (is_ai m && _); inversion E; subst r; simpl in H;
      [reflexivity|discriminate].
  - destruct (String.eqb_spec source "tools") as [->|_]; discriminate.
Qed.

(** C10.  When the last message of the state is not an [AIMessage], the
    routing function returns [END]; and the graph goes to the [tools] node
    only out of the [agent] node, on a state whose last message is an
    [AIMessage] with a non-empty list of tool calls. *)
Theorem should_continue_non_ai (llm : BaseChatModel World)
    (state : AgentState) (last_message : BaseMessage) :
  last state = Some last_message ->
  is_ai last_message = false ->
  _should_continue state = inr END
  /\ route (build_travel_agent cfg llm) "agent" state = inr END
  /\ forall (source : string) (state' : AgentState),
       route (build_travel_agent cfg llm) source state' = inr "tools"%string ->
       source = "agent"%string
       /\ exists c calls i,
            last state' = Some (AIMessage c calls i) /\ calls <> [].
Proof.
  intros Hlast Hai.
  assert (E : _should_continue state = inr END).
  { rewrite (should_continue_last state last_message Hlast), Hai. reflexivity. }
  split; [exact E|]. split.
  - rewrite route_from_agent, E. reflexivity.
  - intros source state' H. apply route_to_tools in H as [Hs Hc].
    split; [exact Hs|]. exact (should_continue_tools state' Hc).
Qed.

End AgentGraph.

(** The seed of [test_invoke_agent_includes_chat_history]: system prompt,
    the two messages of the history, the new user message. *)
Example seed_with_history :
  seed_messages "Plan a trip"
    (Some [HumanMessage "Hello" None; AIMessage "Hi there!" [] None])
  = [SystemMessage SYSTEM_PROMPT None;
     HumanMessage "Hello" None;
     AIMessage "Hi there!" [] None;
     HumanMessage "Plan a trip" None].
Proof. reflexivity. Qed.

Example seed_without_history :
  seed_messages "Hello" None = seed_messages "Hello" (Some [])
  /\ seed_messages "Hello" None
     = [SystemMessage SYSTEM_PROMPT None; HumanMessage "Hello" None].
Proof. split; reflexivity. Qed.

(** C10 on a state that ends with a tool result. *)
Lemma should_continue_non_ai_witness :
  _should_continue
    [HumanMessage "Plan 5 days in Kyoto" None;
     AIMessage EmptyString [weather_call] None;
     ToolMessage "{}" (Some "call_1"%string) (Some "get_weather"%string) None]
  = inr END.
Proof.
  exact (proj1 (should_continue_non_ai (core := native_core) (text := test_text)
                  (test_settings EmptyString) mock_llm
                  [HumanMessage "Plan 5 days in Kyoto" None;
                   AIMessage EmptyString [weather_call] None;
                   ToolMessage "{}" (Some "call_1"%string)
                     (Some "get_weather"%string) None]
                  (ToolMessage "{}" (Some "call_1"%string)
                     (Some "get_weather"%string) None)
                  eq_refl eq_refl)).
Defined.

(** *** The reducer and the tool node *)

Lemma add_messages_without_id (right left : list BaseMessage) :
  Forall (fun m => msg_id m = None) right ->
  add_messages left right = left ++ right.
Proof.
  unfold add_messages. revert left.
  induction right as [|m right IH]; intros left Hall; simpl.
  - symmetry. apply app_nil_r.
  - inversion Hall as [|? ? Hm Hrest]; subst.
    rewrite (IH _ Hrest). unfold merge_message. rewrite Hm.
    rewrite <- app_assoc. reflexivity.
Qed.

Section ToolNodeFacts.
Context {World : Type} {text : ToolNodeText}.
Variable tools : list (BaseTool World).

Lemma run_one_message (call : ToolCall) (w : World) :
  msg_id (run_one tools call w).1.1 = None
  /\ msg_tool_call_id (run_one tools call w).1.1 = call_id call.
Proof.
  unfold run_one. destruct (find _ (rev tools)) as [t|]; simpl.
  - destruct (Tools.invoke t (call_args call) w). simpl. auto.
  - auto.
Qed.

Lemma run_calls_cons (call : ToolCall) (requested : list ToolCall) (w : World) :
  run_calls tools (call :: requested) w
  = let one := run_one tools call w in
    let more := run_calls tools requested one.1.2 in
    (one.1.1 :: more.1.1, more.1.2, one.2 ++ more.2).
Proof.
  simpl. destruct (run_one tools call w) as [[m w1] e1]. simpl.
  destruct (run_calls tools requested w1) as [[ms w2] e2]. reflexivity.
Qed.

(** One message per call, in request order, each without an id of its own
    and carrying the id of its call. *)
Lemma run_calls_messages (requested : list ToolCall) (w : World) :
  Forall (fun m => msg_id m = None) (run_calls tools requested w).1.1
  /\ map msg_tool_call_id (run_calls tools requested w).1.1
     = map call_id requested.
Proof.
  revert w. induction requested as [|call requested IH]; intros w.
  - simpl. split; [constructor|reflexivity].
  - rewrite run_calls_cons. cbn [fst snd map].
    destruct (run_one_message call w) as [Hid Hcall].
    destruct (IH (run_one tools call w).1.2) as [Hids Hcalls].
    split; [constructor; assumption|]. rewrite Hcall, Hcalls. reflexivity.
Qed.

(** A call of a registered tool is run. *)
Lemma run_calls_made (requested : list ToolCall) (w : World) :
  Forall (fun call => In (call_name call) (map Tools.name tools)) requested ->
  (run_calls tools requested w).2 = map ToolRun requested.
Proof.
  revert w. induction requested as [|call requested IH]; intros w Hall.
  - reflexivity.
  - inversion Hall as [|? ? Hin Hrest]; subst.
    rewrite run_calls_cons. cbn [fst snd map]. rewrite (IH _ Hrest).
    unfold run_one.
    destruct (find _ (rev tools)) as [t|] eqn:E.
    + destruct (Tools.invoke t (call_args call) w). reflexivity.
    + exfalso. apply in_map_iff in Hin as [t [Hn Ht]].
      assert (Hf := find_none _ _ E t).
      rewrite <- in_rev in Hf. specialize (Hf Ht). simpl in Hf.
      rewrite Hn, String.eqb_refl in Hf. discriminate.
Qed.

End ToolNodeFacts.

(** *** Running the graph *)

Section RunFacts.
Context {World : Type}.

Lemma run_unfold (g : StateGraph World) (limit : nat) (st : Pregel World) :
  run g limit st
  = match route g (at_node st) (channel st) with
    | inl e => inl e
    | inr target =>
        if String.eqb target END then inr st
        else match limit with
             | O => inl GraphRecursionError
             | S n =>
                 match exec g target st with
                 | inl e => inl e
                 | inr st' => run g n st'
                 end
             end
    end.
Proof. destruct limit; reflexivity. Qed.

(** A node only adds to the record of calls. *)
Lemma exec_calls (g : StateGraph World) (target : string) (st st' : Pregel World) :
  exec g target st = inr st' -> exists made, calls st' = calls st ++ made.
Proof.
  unfold exec. destruct (assoc target (nodes g)) as [node|]; [|discriminate].
  destruct (update (node (channel st) (world st))); [discriminate|].
  intros E. inversion E. simpl. eauto.
Qed.

Lemma run_calls_extend (g : StateGraph World) (limit : nat)
    (st result : Pregel World) :
  run g limit st = inr result -> exists rest, calls result = calls st ++ rest.
Proof.
  revert st. induction limit as [|n IH]; intros st; rewrite run_unfold;
    destruct (route g (at_node st) (channel st)) as [e|target]; try discriminate;
    destruct (String.eqb target END).
  - intros E. inversion E. exists []. symmetry. apply app_nil_r.
  - discriminate.
  - intros E. inversion E. exists []. symmetry. apply app_nil_r.
  - destruct (exec g target st) as [e|st'] eqn:Hexec; [discriminate|].
    intros E. apply IH in E as [rest Hrest].
    apply exec_calls in Hexec as [made Hmade].
    exists (made ++ rest). rewrite Hrest, Hmade, app_assoc. reflexivity.
Qed.

End RunFacts.

Section AgentLoop.
Context {World : Type} {core : Core} {text : ToolNodeText}.
Variable cfg : Settings.

Lemma exec_agent (llm : BaseChatModel World) (st : Pregel World) :
  exec (build_travel_agent cfg llm) "agent" st
  = match bind_tools llm (ALL_TOOLS cfg) (channel st) (world st) with
    | (inl e, _) => inl e
    | (inr answer, w') =>
        inr (mkpregel (add_messages (channel st) [answer]) "agent" w'
               (calls st ++ [ModelCall (channel st)]))
    end.
Proof.
  unfold exec. simpl. unfold _make_agent_node, agent_node.
  destruct (bind_tools llm (ALL_TOOLS cfg) (channel st) (world st)) as [[e|answer] w'];
    reflexivity.
Qed.

Lemma exec_tools (llm : BaseChatModel World) (st : Pregel World)
    (c : string) (requested : list ToolCall) (i : option string) :
  last (channel st) = Some (AIMessage c requested i) ->
  exec (build_travel_agent cfg llm) "tools" st
  = let r := run_calls (ALL_TOOLS cfg) requested (world st) in
    inr (mkpregel (channel st ++ r.1.1) "tools" r.1.2 (calls st ++ r.2)).
Proof.
  intros Hlast. unfold exec. simpl. unfold ToolNode. rewrite Hlast.
  pose proof (run_calls_messages (ALL_TOOLS cfg) requested (world st)) as [Hids _].
  destruct (run_calls (ALL_TOOLS cfg) requested (world st)) as [[outputs w'] made].
  simpl in *. rewrite (add_messages_without_id outputs (channel st) Hids).
  reflexivity.
Qed.


End AgentLoop.

(** *** Determinism of the loop *)

Section Determinism.
Context {World : Type}.

Variable g : StateGraph World.
Hypothesis nodes_deterministic :
  forall name node, assoc name (nodes g) = Some node -> deterministic_node node.

Lemma exec_deterministic (target : string) (a b : Pregel World) :
  same_run a b -> same_step (exec g target a) (exec g target b).
Proof.
  intros (Hch & Hat & Hcalls). unfold exec.
  destruct (assoc target (nodes g)) as [node|] eqn:Hnode; [|reflexivity].
  destruct (nodes_deterministic target node Hnode (channel a) (world a) (world b))
    as [Hupd Hperf].
  rewrite <- Hch, <- Hupd, <- Hperf.
  destruct (update (node (channel a) (world a))) as [e|messages]; simpl.
  - reflexivity.
  - unfold same_run. simpl. rewrite Hcalls. auto.
Qed.

Lemma run_deterministic (limit : nat) (a b : Pregel World) :
  same_run a b ->
  outcome (run g limit a) = outcome (run g limit b)
  /\ trajectory g limit a = trajectory g limit b.
Proof.
  revert a b. induction limit as [|n IH]; intros a b Hsame;
    pose proof Hsame as (Hch & Hat & Hcalls);
    rewrite !run_unfold; cbn [trajectory]; rewrite <- Hch, <- Hat;
    (destruct (route g (at_node a) (channel a)) as [e|target];
     [split; reflexivity|]);
    (destruct (String.eqb target END);
     [split; [simpl; rewrite Hch, Hcalls|]; reflexivity|]).
  - split; reflexivity.
  - pose proof (exec_deterministic target a b Hsame) as Hstep.
    destruct (exec g target a) as [e|a'], (exec g target b) as [e'|b'];
      simpl in Hstep; try contradiction.
    + subst e'. split; reflexivity.
    + destruct (IH a' b' Hstep) as [Hout Htraj].
      split; [exact Hout|]. destruct Hstep as (Hch' & _). rewrite Hch', Htraj.
      reflexivity.
Qed.

End Determinism.

Section AgentDeterminism.
Context {World : Type} {core : Core} {text : ToolNodeText}.
Variable cfg : Settings.

Lemma run_one_deterministic (tools : list (BaseTool World)) (call : ToolCall)
    (w w' : World) :
  Forall deterministic_tool tools ->
  (run_one tools call w).1.1 = (run_one tools call w').1.1
  /\ (run_one tools call w).2 = (run_one tools call w').2.
Proof.
  intros Hdet. unfold run_one.
  destruct (find _ (rev tools)) as [t|] eqn:E; [|split; reflexivity].
  apply find_some in E as [Hin _]. rewrite <- in_rev in Hin.
  rewrite List.Forall_forall in Hdet.
  pose proof (Hdet t Hin (call_args call) w w') as Hfst.
  destruct (Tools.invoke t (call_args call) w) as [r w1].
  destruct (Tools.invoke t (call_args call) w') as [r' w1'].
  simpl in Hfst. subst r'. split; reflexivity.
Qed.

Lemma run_calls_deterministic (tools : list (BaseTool World))
    (requested : list ToolCall) (w w' : World) :
  Forall deterministic_tool tools ->
  (run_calls tools requested w).1.1 = (run_calls tools requested w').1.1
  /\ (run_calls tools requested w).2 = (run_calls tools requested w').2.
Proof.
  intros Hdet. revert w w'.
  induction requested as [|call requested IH]; intros w w'.
  - split; reflexivity.
  - rewrite !run_calls_cons. cbn [fst snd].
    destruct (run_one_deterministic tools call w w' Hdet) as [Hm He].
    destruct (IH (run_one tools call w).1.2 (run_one tools call w').1.2)
      as [Hms Hes].
    rewrite Hm, He, Hms, Hes. split; reflexivity.
Qed.

Lemma tool_node_deterministic (tools : list (BaseTool World)) :
  Forall deterministic_tool tools -> deterministic_node (ToolNode tools).
Proof.
  intros Hdet state w w'. unfold ToolNode.
  destruct (last state) as [[c i|c i|c requested i|c t n i]|];
    try (split; reflexivity).
  destruct (run_calls_deterministic tools requested w w' Hdet) as [Hout Hmade].
  destruct (run_calls tools requested w) as [[outputs w1] made].
  destruct (run_calls tools requested w') as [[outputs' w1'] made'].
  simpl in *. subst. split; reflexivity.
Qed.

Lemma agent_node_deterministic (llm : BaseChatModel World) :
  deterministic_model llm -> deterministic_node (_make_agent_node cfg llm).
Proof.
  intros Hdet state w w'. unfold _make_agent_node, agent_node, bind_tools.
  pose proof (Hdet (map Tools.name (ALL_TOOLS (World := World) cfg)) state w w')
    as Hfst.
  destruct (invoke llm _ state w) as [r w1].
  destruct (invoke llm _ state w') as [r' w1'].
  simpl in Hfst. subst r'. split; reflexivity.
Qed.

(** The two registered tools read the settings and their arguments only. *)
Lemma all_tools_deterministic :
  Forall deterministic_tool (ALL_TOOLS (World := World) cfg).
Proof. repeat constructor. Qed.

Lemma travel_agent_nodes_deterministic (llm : BaseChatModel World) :
  deterministic_model llm ->
  forall name node,
    assoc name (nodes (build_travel_agent cfg llm)) = Some node ->
    deterministic_node node.
Proof.
  intros Hdet name node. simpl.
  destruct (String.eqb name "agent").
  - intros E. inversion E. apply agent_node_deterministic. exact Hdet.
  - destruct (String.eqb name "tools"); [|discriminate].
    intros E. inversion E. apply tool_node_deterministic.
    apply all_tools_deterministic.
Qed.


End AgentDeterminism.

(** *** The scenarios of the tests *)

(** [invoke_agent(mock_llm, "Plan 5 days in Kyoto")]: the plain answer comes
    back after one model call and no tool run. *)
Example plain_answer_scenario :
  invoke_agent (core := native_core) (text := test_text)
    (test_settings EmptyString) 25 mock_llm "Plan 5 days in Kyoto" None 0%nat
  = inr (AIMessage "Mock response from Atlas." [] None)
  /\ outcome
       (graph_invoke
          (build_travel_agent (core := native_core) (text := test_text)
             (test_settings EmptyString) mock_llm)
          25 (seed_messages "Plan 5 days in Kyoto" None) 0%nat)
     = inr ([SystemMessage SYSTEM_PROMPT None;
             HumanMessage "Plan 5 days in Kyoto" None;
             AIMessage "Mock response from Atlas." [] None],
            [ModelCall [SystemMessage SYSTEM_PROMPT None;
                        HumanMessage "Plan 5 days in Kyoto" None]]).
Proof. split; vm_compute; reflexivity. Qed.

(** A model that first asks for the weather in Kyoto: system, user,
    assistant with the tool call, the tool result for that call, the final
    answer. *)
Example weather_scenario :
  exists tool_result,
    outcome
      (graph_invoke
         (build_travel_agent (core := native_core) (text := test_text)
            (test_settings EmptyString) scripted_llm)
         25 (seed_messages "Plan 5 days in Kyoto" None) 0%nat)
    = inr ([SystemMessage SYSTEM_PROMPT None;
            HumanMessage "Plan 5 days in Kyoto" None;
            AIMessage EmptyString [weather_call] None;
            ToolMessage tool_result (Some "call_1"%string)
              (Some "get_weather"%string) None;
            AIMessage "Pack an umbrella." [] None],
           [ModelCall [SystemMessage SYSTEM_PROMPT None;
                       HumanMessage "Plan 5 days in Kyoto" None];
            ToolRun weather_call;
            ModelCall [SystemMessage SYSTEM_PROMPT None;
                       HumanMessage "Plan 5 days in Kyoto" None;
                       AIMessage EmptyString [weather_call] None;
                       ToolMessage tool_result (Some "call_1"%string)
                         (Some "get_weather"%string) None]])
    /\ tool_result
       = json_dumps (get_weather (test_settings EmptyString) "Kyoto" "2025-04-01").
Proof. eexists. split; vm_compute; reflexivity. Qed.

(** With a step budget of one the second model call is never reached. *)
Example weather_scenario_out_of_steps :
  invoke_agent (core := native_core) (text := test_text)
    (test_settings EmptyString) 1 scripted_llm "Plan 5 days in Kyoto" None 0%nat
  = inl GraphRecursionError.
Proof. vm_compute. reflexivity. Qed.


Lemma scripted_llm_deterministic : deterministic_model scripted_llm.
Proof.
  intros bound messages n n'. simpl.
  destruct (last messages) as [[c i|c i|c calls i|c t nm i]|]; reflexivity.
Defined.


(** The hypothesis on the model is needed: a model that reads the world
    answers differently in different worlds. *)
Example moody_model_not_replayable :
  invoke_agent (core := native_core) (text := test_text)
    (test_settings EmptyString) 25 moody_llm "Hello" None 0%nat
  <> invoke_agent (core := native_core) (text := test_text)
       (test_settings EmptyString) 25 moody_llm "Hello" None 1%nat.
Proof. vm_compute. discriminate. Qed.

(** * Further properties of the code *)

(** ** Enums *)

Lemma find_value_spec {A} (value : A -> string) (members : list A)
    (s : string) (e : A) :
  find (fun x => String.eqb s (value x)) members = Some e -> value e = s.
Proof.
  intros H. apply find_some in H as [_ E]. apply String.eqb_eq in E. auto.
Qed.

(** X1.  In each of the five enums the member values are pairwise
    distinct: a string is accepted as a member exactly when it is the
    value of that member. *)
Theorem enum_of_value_iff :
  (forall s e, ActivityCategory.of_value s = Some e <-> ActivityCategory.value e = s)
  /\ (forall s e, TripPace.of_value s = Some e <-> TripPace.value e = s)
  /\ (forall s e, TransitMode.of_value s = Some e <-> TransitMode.value e = s)
  /\ (forall s e, DaySource.of_value s = Some e <-> DaySource.value e = s)
  /\ (forall s e, NoteAuthor.of_value s = Some e <-> NoteAuthor.value e = s).
Proof.
  repeat split; try (apply find_value_spec);
    intros <-; destruct e; reflexivity.
Qed.

(** ** Construction of an itinerary *)

Lemma ap_invalid_l {A B} (rf : Result (A -> B)) (ra : Result A)
    (e : list ErrorDetails) :
  rf = Invalid e -> exists e', ap rf ra = Invalid e' /\ incl e e'.
Proof.
  intros ->. destruct ra as [a|e2]; simpl; eexists; split; try reflexivity.
  - apply incl_refl.
  - apply incl_appl, incl_refl.
Qed.

Lemma ap_invalid_r {A B} (rf : Result (A -> B)) (ra : Result A)
    (e : list ErrorDetails) :
  ra = Invalid e -> exists e', ap rf ra = Invalid e' /\ incl e e'.
Proof.
  intros ->. destruct rf as [f|e1]; simpl; eexists; split; try reflexivity.
  - apply incl_refl.
  - apply incl_appr, incl_refl.
Qed.

Section ItineraryConstruction.
Context {core : Core}.
Variable now : datetime.

(** X2.  When [start_date] did not pass its own validation, the validator
    of [end_date] compares nothing: with every other field valid, the
    errors of the construction are those of [start_date] alone, whatever
    the [end_date]. *)
Theorem end_date_unchecked_without_start_date
    (data : Dict) (dest : Destination.t) (errors : list ErrorDetails) (ed : date)
    (prefs : TripPreferences.t) (ds : list ItineraryDay.t)
    (fl : list Flight.t) (acc : list Accommodation.t) (created : datetime) :
  field "destination" Destination.model_validate None data = Ok dest ->
  field "start_date" date_validator None data = Invalid errors ->
  field "end_date" date_validator None data = Ok ed ->
  field "preferences" TripPreferences.model_validate
    (Some TripPreferences.default) data = Ok prefs ->
  field "days" (list_validator ItineraryDay.model_validate) (Some []) data = Ok ds ->
  field "flights" (list_validator Flight.model_validate) (Some []) data = Ok fl ->
  field "accommodations" (list_validator Accommodation.model_validate)
    (Some []) data = Ok acc ->
  field "created_at" datetime_validator (Some now) data = Ok created ->
  Itinerary.validate_fields now data = Invalid errors.
Proof.
  intros Hdest Hsd Hed Hprefs Hds Hfl Hacc Hcreated.
  unfold Itinerary.validate_fields.
  rewrite field_after, Hdest, Hsd, Hed, Hprefs, Hds, Hfl, Hacc, Hcreated.
  reflexivity.
Qed.

(** X3.  A construction that leaves out [destination], [start_date] or
    [end_date] fails, and its errors include the [missing] line of that
    field, whatever else the keyword arguments hold. *)
Theorem itinerary_required_fields (data : Dict) (name : string) :
  In name ["destination"; "start_date"; "end_date"] ->
  dict_get name data = None ->
  exists errors,
    Itinerary.validate_fields now data = Invalid errors
    /\ In (mkerr "missing" [LKey name] "Field required") errors.
Proof.
  intros Hname Hget. unfold Itinerary.validate_fields.
  set (missing := mkerr "missing" [LKey name] "Field required").
  assert (Hmiss : forall A (f : Value -> Result A),
            field name f None data = Invalid [missing]).
  { intros A f. unfold field. rewrite Hget. reflexivity. }
  assert (Hstep : forall A B (rf : Result (A -> B)) (ra : Result A),
            (exists e, rf = Invalid e /\ In missing e) ->
            exists e, ap rf ra = Invalid e /\ In missing e).
  { intros A B rf ra (e & -> & Hin).
    destruct (ap_invalid_l (B := B) (Invalid e) ra e eq_refl) as (e' & E & Hincl).
    exists e'. split; [exact E|]. apply Hincl, Hin. }
  assert (Hhere : forall A B (rf : Result (A -> B)) (ra : Result A),
            ra = Invalid [missing] ->
            exists e, ap rf ra = Invalid e /\ In missing e).
  { intros A B rf ra E.
    destruct (ap_invalid_r rf ra [missing] E) as (e' & E' & Hincl).
    exists e'. split; [exact E'|]. apply Hincl. left. reflexivity. }
  simpl in Hname. destruct Hname as [<-|[<-|[<-|[]]]].
  - do 7 apply Hstep. apply Hhere. apply Hmiss.
  - do 6 apply Hstep. apply Hhere. apply Hmiss.
  - do 5 apply Hstep. apply Hhere. apply Hmiss.
Qed.

End ItineraryConstruction.

(** X2 at a construction without [start_date]. *)
Lemma end_date_unchecked_without_start_date_witness :
  Itinerary.validate_fields (core := native_core) clock
    [("destination", VDict kyoto); ("end_date", VDate (mkdate 2025 4 5))]
  = Invalid [mkerr "missing" [LKey "start_date"] "Field required"].
Proof.
  apply (end_date_unchecked_without_start_date (core := native_core) clock
           [("destination", VDict kyoto); ("end_date", VDate (mkdate 2025 4 5))]
           _ _ _ _ _ _ _ _
           eq_refl eq_refl eq_refl eq_refl eq_refl eq_refl eq_refl eq_refl).
Defined.

(** X3 at [Itinerary()] without any argument: three [missing] lines. *)
Lemma itinerary_required_fields_witness :
  exists errors,
    Itinerary.validate_fields (core := native_core) clock [] = Invalid errors
    /\ In (mkerr "missing" [LKey "end_date"] "Field required") errors.
Proof.
  apply (itinerary_required_fields (core := native_core) clock [] "end_date").
  - simpl. tauto.
  - reflexivity.
Defined.

(** ** Trip preferences: the pace *)



(** ** Attribute assignment, continued *)

Lemma dict_get_set_same (k : string) (v : Value) (d : Dict) :
  dict_get k (dict_set k v d) = Some v.
Proof.
  induction d as [|[k' v'] d IH]; simpl.
  - rewrite String.eqb_refl. reflexivity.
  - destruct (String.eqb k k') eqn:E; simpl; rewrite E; auto.
Qed.

Lemma dict_get_set_other (k k0 : string) (v : Value) (d : Dict) :
  k0 <> k -> dict_get k0 (dict_set k v d) = dict_get k0 d.
Proof.
  intros Hne. induction d as [|[k' v'] d IH]; simpl.
  - apply String.eqb_neq in Hne. rewrite Hne. reflexivity.
  - destruct (String.eqb k k') eqn:E; simpl.
    + apply String.eqb_eq in E. subst k'.
      apply String.eqb_neq in Hne. rewrite Hne. reflexivity.
    + rewrite IH. reflexivity.
Qed.





(** X7.  [Itinerary] does not validate on assignment: an [end_date] on or
    before the [start_date] is accepted by assignment, and the instance it
    leaves no longer validates: its dumped form is rejected with the
    [end_date] error of the constructor. *)
Theorem itinerary_assignment_skips_validator
    (core : Core) (now : datetime) (it : Itinerary.t) (d : date) :
  Itinerary.wf it = true ->
  date_valid d = true ->
  date_le d (Itinerary.start_date it) = true ->
  let self := instance_of Itinerary (Itinerary.model_dump (core := core) it) in
  let assigned := setattr self "end_date" (date_serializer d) in
  fst assigned = inr tt
  /\ Itinerary.model_validate (core := core) now (VDict (attrs (snd assigned)))
     = Invalid [end_date_error].
Proof.
  destruct it. unfold Itinerary.wf. simpl. intros Hwf Hd Hle.
  repeat (apply andb_prop in Hwf as [Hwf ?]).
  split; [reflexivity|].
  unfold Itinerary.model_validate, model_validator, Itinerary.validate_fields.
  simpl attrs. rewrite field_after.
  repeat (erewrite field_present by reflexivity).
  rewrite (destination_roundtrip _ Hwf), !date_serialized,
    (trip_preferences_roundtrip _), (datetime_serialized _) by assumption.
  rewrite (list_roundtrip ItineraryDay.model_dump ItineraryDay.model_validate
             ItineraryDay.wf _ itinerary_day_roundtrip) by assumption.
  rewrite (list_roundtrip Flight.model_dump Flight.model_validate
             Flight.wf _ flight_roundtrip) by assumption.
  rewrite (list_roundtrip Accommodation.model_dump Accommodation.model_validate
             Accommodation.wf _ accommodation_roundtrip) by assumption.
  simpl. unfold Itinerary.end_after_start. simpl. rewrite Hle. reflexivity.
Qed.

(** X7 on [sample_itinerary]: [it.end_date = it.start_date]. *)
Lemma itinerary_assignment_skips_validator_witness :
  let self := instance_of Itinerary
                (Itinerary.model_dump (core := native_core) sample_itinerary) in
  let assigned := setattr self "end_date" (VDate (mkdate 2025 4 1)) in
  fst assigned = inr tt
  /\ Itinerary.model_validate (core := native_core) clock
       (VDict (attrs (snd assigned)))
     = Invalid [end_date_error].
Proof.
  apply (itinerary_assignment_skips_validator native_core clock sample_itinerary
           (mkdate 2025 4 1)); reflexivity.
Defined.

(** ** Tools, continued *)

Lemma to_lower_cased (c : ascii) :
  is_cased (to_lower c) = is_cased c /\ to_lower (to_lower c) = to_lower c.
Proof.
  destruct c as [[|] [|] [|] [|] [|] [|] [|] [|]]; split; reflexivity.
Qed.

Lemma to_upper_cased (c : ascii) :
  is_cased (to_upper c) = is_cased c /\ to_upper (to_upper c) = to_upper c.
Proof.
  destruct c as [[|] [|] [|] [|] [|] [|] [|] [|]]; split; reflexivity.
Qed.

Lemma title_from_idempotent (s : string) (b : bool) :
  title_from b (title_from b s) = title_from b s.
Proof.
  revert b. induction s as [|c s IH]; intros b; simpl; [reflexivity|].
  destruct b.
  - destruct (to_lower_cased c) as [-> ->]. rewrite IH. reflexivity.
  - destruct (to_upper_cased c) as [-> ->]. rewrite IH. reflexivity.
Qed.


Section Dispatch.
Context {World : Type} {core : Core} {text : ToolNodeText}.
Variable cfg : Settings.

(** X9.  The tool node finds each of the two tools under its own name: a
    call of [get_weather] with string arguments [city] and [date] is
    answered with the rendering of [get_weather(city, date)], a call of
    [search_destinations] with a string [query] (and an integer
    [max_results] or none) with the rendering of the list
    [search_destinations(query, ...)] returns; each answer carries the id
    and the name of its call, and the world is left as it was. *)
Theorem tool_node_dispatch (args : Dict) (id : option string) (w : World) :
  (forall city date,
     dict_get "city" args = Some (VStr city) ->
     dict_get "date" args = Some (VStr date) ->
     run_one (ALL_TOOLS cfg) (mkcall "get_weather" args id) w
     = (ToolMessage (msg_content_output (get_weather cfg city date)) id
          (Some "get_weather"%string) None,
        w, [ToolRun (mkcall "get_weather" args id)]))
  /\ (forall query max_results,
        dict_get "query" args = Some (VStr query) ->
        dict_get "max_results" args = option_map VInt max_results ->
        run_one (ALL_TOOLS cfg) (mkcall "search_destinations" args id) w
        = (ToolMessage
             (msg_content_output
                (VList (search_destinations query
                          (match max_results with Some n => n | None => 5 end))))
             id
             (Some "search_destinations"%string) None,
           w, [ToolRun (mkcall "search_destinations" args id)])).
Proof.
  split.
  - intros city date Hcity Hdate. unfold run_one. simpl.
    rewrite (field_present _ _ _ _ _ Hcity), (field_present _ _ _ _ _ Hdate).
    rewrite !str_native. reflexivity.
  - intros query max_results Hquery Hmax. unfold run_one. simpl.
    rewrite (field_present _ _ _ _ _ Hquery), str_native.
    destruct max_results as [n|]; simpl in Hmax.
    + rewrite (field_present _ _ _ _ _ Hmax), int_native. reflexivity.
    + rewrite (field_absent _ _ _ _ Hmax). reflexivity.
Qed.

End Dispatch.

(** X9 at the tool call of the tests. *)
Lemma tool_node_dispatch_witness :
  run_one (World := nat) (text := test_text)
    (ALL_TOOLS (core := native_core) (test_settings EmptyString)) weather_call 0%nat
  = (ToolMessage
       (json_dumps (get_weather (test_settings EmptyString) "Kyoto" "2025-04-01"))
       (Some "call_1"%string) (Some "get_weather"%string) None,
     0%nat, [ToolRun weather_call]).
Proof.
  exact (proj1 (tool_node_dispatch (core := native_core) (text := test_text)
                  (test_settings EmptyString) (call_args weather_call)
                  (Some "call_1"%string) 0%nat)
           "Kyoto" "2025-04-01" eq_refl eq_refl).
Defined.

(** ** The reducer of the messages channel *)

Import Conditions.

Lemma index_of_id_cases (i : string) (l : list BaseMessage) (k : nat)
    (found : option nat) :
  (exists j, index_of_id i l k found = Some j /\ (k <= j < k + length l)%nat)
  \/ (index_of_id i l k found = found
      /\ Forall (fun m => has_id i m = false) l).
Proof.
  revert k found. induction l as [|a l IH]; intros k found; simpl.
  - right. split; [reflexivity|constructor].
  - destruct (IH (S k) (if has_id i a then Some k else found))
      as [(j & E & Hj)|[E Hall]].
    + left. exists j. split; [exact E|lia].
    + destruct (has_id i a) eqn:Ha.
      * left. exists k. split; [exact E|lia].
      * right. split; [exact E|]. constructor; assumption.
Qed.

Lemma index_of_id_absent (i : string) (l : list BaseMessage) (k : nat)
    (found : option nat) :
  Forall (fun m => has_id i m = false) l -> index_of_id i l k found = found.
Proof.
  revert k found. induction l as [|a l IH]; intros k found Hall; simpl.
  - reflexivity.
  - inversion Hall as [|? ? Ha Hl]; subst. rewrite Ha. apply IH, Hl.
Qed.

Lemma merge_message_fresh (state : list BaseMessage) (m : BaseMessage) :
  fresh_for state m -> merge_message state m = state ++ [m].
Proof.
  intros Hfresh. unfold merge_message.
  destruct (msg_id m) as [i|] eqn:Hid; [|reflexivity].
  rewrite (index_of_id_absent i state 0 None (Hfresh i Hid)). reflexivity.
Qed.

Lemma merge_message_length (l : list BaseMessage) (m : BaseMessage) :
  (length l <= length (merge_message l m) <= S (length l))%nat
  /\ merge_message l m <> [].
Proof.
  unfold merge_message.
  assert (Happ : (length l <= length (l ++ [m]) <= S (length l))%nat
                 /\ l ++ [m] <> []).
  { rewrite length_app. simpl. split; [lia|]. destruct l; discriminate. }
  destruct (msg_id m) as [i|]; [|exact Happ].
  destruct (index_of_id_cases i l 0 None) as [(j & E & Hj)|[E _]]; rewrite E.
  - rewrite length_insert. split; [lia|].
    intros Hnil. apply (f_equal length) in Hnil.
    rewrite length_insert in Hnil. simpl in Hnil. lia.
  - exact Happ.
Qed.

Lemma add_messages_one (state : list BaseMessage) (m : BaseMessage) :
  add_messages state [m] = merge_message state m.
Proof. reflexivity. Qed.



(** ** What a run of the agent can end in *)

Section AgentSafety.
Context {World : Type} {core : Core} {text : ToolNodeText}.
Variable cfg : Settings.
Variable llm : BaseChatModel World.

Lemma should_continue_nonempty (state : AgentState) :
  state <> [] ->
  _should_continue state = inr "tools"%string \/ _should_continue state = inr END.
Proof.
  intros Hne. unfold _should_continue.
  destruct (last state) as [m|] eqn:E.
  - destruct (is_ai m && _); auto.
  - apply last_None in E. contradiction.
Qed.

Lemma run_after_agent (n : nat) (st : Pregel World) :
  (forall st', reachable st' ->
     run_safe cfg llm (run (build_travel_agent cfg llm) n st')) ->
  run_safe cfg llm
           (match exec (build_travel_agent cfg llm) "agent" st with
            | inl e => inl e
            | inr st' => run (build_travel_agent cfg llm) n st'
            end).
Proof.
  intros IH. rewrite exec_agent.
  destruct (bind_tools llm (ALL_TOOLS cfg) (channel st) (world st))
    as [[e|answer] w'] eqn:E.
  - right. exists (channel st), (world st). rewrite E. reflexivity.
  - apply IH. right. left. split; [reflexivity|]. cbn [channel].
    rewrite add_messages_one. apply merge_message_length.
Qed.

Lemma run_reachable (limit : nat) (st : Pregel World) :
  reachable st -> run_safe cfg llm (run (build_travel_agent cfg llm) limit st).
Proof.
  revert st. induction limit as [|n IH]; intros [ch source w log];
    unfold reachable; cbn [at_node channel];
    (intros [ -> | [ [ -> Hne ] | -> ] ]; rewrite run_unfold;
     cbn [at_node channel]).
  - rewrite route_from_start. left. reflexivity.
  - rewrite route_from_agent.
    destruct (should_continue_nonempty ch Hne) as [E|E]; rewrite E.
    + left. reflexivity.
    + simpl. auto.
  - rewrite route_from_tools. left. reflexivity.
  - rewrite route_from_start. apply (run_after_agent n _ IH).
  - rewrite route_from_agent.
    destruct (should_continue_nonempty ch Hne) as [E|E]; rewrite E.
    + cbn [String.eqb Ascii.eqb Bool.eqb END].
      destruct (should_continue_tools ch E) as (c & requested & i & Hlast & _).
      rewrite (exec_tools cfg llm (mkpregel ch "agent" w log) c requested i Hlast).
      cbv beta iota zeta. apply IH. right. right. reflexivity.
    + simpl. auto.
  - rewrite route_from_tools. apply (run_after_agent n _ IH).
Qed.


End AgentSafety.

Import Environments.


Section AgentAnswers.
Context {World : Type} {core : Core} {text : ToolNodeText}.
Variable cfg : Settings.
Variable llm : BaseChatModel World.
Hypothesis Hllm : answers_fresh_ai llm.

Lemma agent_answer (state : AgentState) (w w' : World) (answer : BaseMessage) :
  bind_tools llm (ALL_TOOLS cfg) state w = (inr answer, w') ->
  is_ai answer = true /\ add_messages state [answer] = state ++ [answer].
Proof.
  intros E.
  destruct (Hllm (map Tools.name (ALL_TOOLS (World := World) cfg)) state w answer)
    as [Hai Hfresh].
  { unfold bind_tools in E. rewrite E. reflexivity. }
  split; [exact Hai|]. rewrite add_messages_one.
  apply merge_message_fresh, Hfresh.
Qed.

Lemma run_reachable_ai (limit : nat) (st result : Pregel World) :
  reachable_ai st ->
  run (build_travel_agent cfg llm) limit st = inr result ->
  (exists m, last (channel result) = Some m
             /\ is_ai m = true /\ msg_tool_calls m = [])
  /\ exists suffix, channel result = channel st ++ suffix.
Proof.
  revert st.
  assert (Hagent : forall n st,
            (forall st', reachable_ai st' ->
               run (build_travel_agent cfg llm) n st' = inr result ->
               (exists m, last (channel result) = Some m
                          /\ is_ai m = true /\ msg_tool_calls m = [])
               /\ exists suffix, channel result = channel st' ++ suffix) ->
            match exec (build_travel_agent cfg llm) "agent" st with
            | inl e => inl e
            | inr st' => run (build_travel_agent cfg llm) n st'
            end = inr result ->
            (exists m, last (channel result) = Some m
                       /\ is_ai m = true /\ msg_tool_calls m = [])
            /\ exists suffix, channel result = channel st ++ suffix).
  { intros n st IH. rewrite exec_agent.
    destruct (bind_tools llm (ALL_TOOLS cfg) (channel st) (world st))
      as [[e|answer] w'] eqn:E; [discriminate|].
    destruct (agent_answer _ _ _ _ E) as [Hai Happ]. rewrite Happ.
    intros Hrun. apply IH in Hrun.
    - destruct Hrun as [Hm (suffix & Hs)]. split; [exact Hm|].
      exists ([answer] ++ suffix). rewrite Hs. cbn [channel].
      rewrite <- app_assoc. reflexivity.
    - right. left. split; [reflexivity|]. exists answer. cbn [channel].
      rewrite last_snoc. auto. }
  induction limit as [|n IH]; intros [ch source w log];
    unfold reachable_ai; cbn [at_node channel];
    (intros [ -> | [ [ -> (m & Hlast & Hai) ] | -> ] ]; rewrite run_unfold;
     cbn [at_node channel]).
  - rewrite route_from_start. discriminate.
  - rewrite route_from_agent, (should_continue_last ch m Hlast), Hai.
    destruct (msg_tool_calls m) eqn:Hcalls; simpl; [|discriminate].
    intros E. inversion E. subst. cbn [channel]. split; [eauto|].
    exists []. symmetry. apply app_nil_r.
  - rewrite route_from_tools. discriminate.
  - rewrite route_from_start. apply (Hagent n (mkpregel ch START w log) IH).
  - rewrite route_from_agent, (should_continue_last ch m Hlast), Hai.
    destruct (msg_tool_calls m) as [|call requested] eqn:Hcalls; simpl.
    + intros E. inversion E. subst. cbn [channel]. split; [eauto|].
      exists []. symmetry. apply app_nil_r.
    + destruct m as [c i|c i|c calls i|c t nm i]; try discriminate.
      simpl in Hcalls. subst calls.
      rewrite (exec_tools cfg llm (mkpregel ch "agent" w log) c
                 (call :: requested) i Hlast).
      cbv beta iota zeta. intros Hrun. apply IH in Hrun.
      * destruct Hrun as [Hm (suffix & Hs)]. split; [exact Hm|].
        cbn [channel] in Hs. rewrite <- app_assoc in Hs. eauto.
      * right. right. reflexivity.
  - rewrite route_from_tools. apply (Hagent n (mkpregel ch "tools" w log) IH).
Qed.

(** X12.  With a model that answers with [AIMessage]s that do not reuse
    the id of an earlier message, what [invoke_agent] returns is an
    [AIMessage] without tool calls: the final answer, never a message
    that still asks for tools. *)
Theorem invoke_agent_returns_final_answer (recursion_limit : nat)
    (user_message : string) (chat_history : option (list BaseMessage))
    (w : World) (m : BaseMessage) :
  invoke_agent cfg recursion_limit llm user_message chat_history w = inr m ->
  is_ai m = true /\ msg_tool_calls m = [].
Proof.
  unfold invoke_agent, graph_invoke.
  destruct (run _ recursion_limit _) as [e|result] eqn:Hrun; [discriminate|].
  apply run_reachable_ai in Hrun; [|left; reflexivity].
  destruct Hrun as [(m' & Hlast & Hai & Hcalls) _]. rewrite Hlast.
  intros E. inversion E. subst. auto.
Qed.



End AgentAnswers.

Lemma mock_llm_answers_fresh_ai : answers_fresh_ai mock_llm.
Proof.
  intros bound messages n answer E. simpl in E. inversion E. subst.
  split; [reflexivity|]. intros i Hi. discriminate.
Defined.

(** X12 on the model of the tests. *)
Lemma invoke_agent_returns_final_answer_witness :
  is_ai (AIMessage "Mock response from Atlas." [] None) = true
  /\ msg_tool_calls (AIMessage "Mock response from Atlas." [] None) = [].
Proof.
  apply (invoke_agent_returns_final_answer (core := native_core)
           (text := test_text) (test_settings EmptyString) mock_llm
           mock_llm_answers_fresh_ai 25 "Plan 5 days in Kyoto" None 0%nat).
  reflexivity.
Defined.



(** ** Settings and the two caches *)

Import Process.

Lemma ap_invalid_head {A B} (rf : Result (A -> B)) (ra : Result A)
    (x : ErrorDetails) :
  (exists rest, rf = Invalid (x :: rest)) ->
  exists rest, ap rf ra = Invalid (x :: rest).
Proof.
  intros (rest & ->). destruct ra as [a|e]; simpl; eauto.
Qed.

Section SettingsFacts.
Context {core : Core} {bools : BoolCore}.

(** X15.  Without [OPENROUTER_API_KEY] the settings do not load: the
    first error is the [missing] line of [openrouter_api_key], whatever
    else the environment holds.  With the key and none of the other six
    variables, they load with the documented defaults. *)
Theorem settings_load_required_key (env : Dict) :
  (dict_get "openrouter_api_key" env = None ->
     exists rest,
       Settings_load env
       = Invalid (mkerr "missing" [LKey "openrouter_api_key"] "Field required"
                  :: rest))
  /\ (forall key,
        dict_get "openrouter_api_key" env = Some (VStr key) ->
        Forall (fun name => dict_get name env = None)
          ["atlas_llm_model"; "openrouter_base_url"; "atlas_weather_api_key";
           "atlas_debug"; "atlas_host"; "atlas_port"] ->
        Settings_load env
        = Ok (mksettings key "openai/gpt-4o" "https://openrouter.ai/api/v1"
                EmptyString false "127.0.0.1" 8050)).
Proof.
  split.
  - intros Hget. unfold Settings_load.
    do 6 apply ap_invalid_head.
    unfold field. rewrite Hget. simpl. eauto.
  - intros key Hkey Habsent. unfold Settings_load.
    repeat match goal with
           | H : Forall _ (_ :: _) |- _ =>
               let Hn := fresh "Hn" in
               inversion H as [|? ? Hn ?]; subst; clear H;
               rewrite (field_absent _ _ _ _ Hn)
           end.
    rewrite (field_present _ _ _ _ _ Hkey), str_native. reflexivity.
Qed.

(** X16.  [get_settings] reads the environment once: after a call that
    returned settings, every later call returns the same settings from
    the same caches, whatever the environment has become; a call that
    failed leaves the caches as they were, so that the next call loads
    again; and after [cache_clear] the next call loads from the
    environment of that moment. *)
Theorem get_settings_cached (env : Dict) (caches : Caches) :
  match get_settings env caches with
  | (Ok cfg, caches') =>
      forall env', get_settings env' caches' = (Ok cfg, caches')
  | (Invalid _, caches') => caches' = caches
  end
  /\ forall env',
       fst (get_settings env' (settings_cache_clear caches)) = Settings_load env'.
Proof.
  unfold get_settings. split.
  - destruct (settings_cache caches) as [c|] eqn:Hc.
    + intros env'. rewrite Hc. reflexivity.
    + destruct (Settings_load env); [|reflexivity]. intros env'. reflexivity.
  - intros env'. simpl. destruct (Settings_load env'); reflexivity.
Qed.

(** X17.  [get_llm] keeps its own cache: the handle it built carries the
    model, key and base URL of the settings of that moment, and it is
    returned again after the settings cache was cleared and the
    environment changed; only [get_llm.cache_clear] makes the next call
    build a handle from the settings then in force. *)
Theorem get_llm_cached (env : Dict) (caches caches' : Caches) (llm : ChatOpenAI) :
  get_llm env caches = (Ok llm, caches') ->
  (forall env',
     get_llm env' (settings_cache_clear caches')
     = (Ok llm, settings_cache_clear caches'))
  /\ (llm_cache caches = None ->
      exists cfg,
        fst (get_settings env caches) = Ok cfg
        /\ model llm = atlas_llm_model cfg
        /\ api_key llm = openrouter_api_key cfg
        /\ base_url llm = openrouter_base_url cfg)
  /\ (forall env' cfg',
        Settings_load env' = Ok cfg' ->
        exists llm',
          fst (get_llm env' (llm_cache_clear (settings_cache_clear caches')))
          = Ok llm'
          /\ model llm' = atlas_llm_model cfg').
Proof.
  unfold get_llm. intros E. split; [|split].
  - intros env'.
    destruct (llm_cache caches) as [l|] eqn:Hl.
    + inversion E. subst. simpl. rewrite Hl. reflexivity.
    + destruct (get_settings env caches) as [[cfg|errors] c]; inversion E.
      subst. reflexivity.
  - intros Hnone. rewrite Hnone in E.
    destruct (get_settings env caches) as [[cfg|errors] c]; inversion E.
    subst. exists cfg. simpl. auto.
  - intros env' cfg' Hload. simpl. unfold get_settings. simpl. rewrite Hload.
    eexists. split; reflexivity.
Qed.

End SettingsFacts.

(** X15 and X16 in the environment of the tests: the settings load with
    their defaults, and the second call does not see the changed
    environment. *)
Example get_settings_twice :
  exists cfg caches',
    get_settings (core := native_core) (bools := native_bools) test_env
      empty_caches = (Ok cfg, caches')
    /\ get_settings (core := native_core) (bools := native_bools) other_env
         caches' = (Ok cfg, caches')
    /\ cfg = test_settings EmptyString.
Proof. do 2 eexists. repeat split; reflexivity. Qed.

Lemma settings_load_required_key_witness :
  Settings_load (core := native_core) (bools := native_bools) test_env
  = Ok (test_settings EmptyString)
  /\ exists rest,
       Settings_load (core := native_core) (bools := native_bools) []
       = Invalid (mkerr "missing" [LKey "openrouter_api_key"] "Field required"
                  :: rest).
Proof.
  split.
  - apply (proj2 (settings_load_required_key (core := native_core)
                    (bools := native_bools) test_env) "test-key-not-real"
             eq_refl).
    repeat constructor.
  - apply (proj1 (settings_load_required_key (core := native_core)
                    (bools := native_bools) [])).
    reflexivity.
Defined.

(** X17 in the environment of the tests: after the settings cache is
    cleared and another model is configured, [get_llm] still returns the
    handle of the first model. *)
Lemma get_llm_cached_witness :
  exists llm caches',
    get_llm (core := native_core) (bools := native_bools) test_env empty_caches
    = (Ok llm, caches')
    /\ get_llm (core := native_core) (bools := native_bools) other_env
         (settings_cache_clear caches')
       = (Ok llm, settings_cache_clear caches')
    /\ model llm = "openai/gpt-4o".
Proof.
  eexists. eexists. split; [reflexivity|]. split; [|reflexivity].
  exact (proj1 (get_llm_cached (core := native_core) (bools := native_bools)
                  test_env empty_caches _ _ eq_refl) other_env).
Defined.

(** ** The shape of the models *)

Import Entity.


(** X19.  The classes that can be built without any argument are
    [TripPreferences] and [UserProfile]: every other class has a required
    field and rejects the empty input. *)
Theorem constructible_without_arguments (core : Core) (now : datetime)
    (c : ModelClass) :
  is_ok (model_validate (core := core) now c (VDict [])) = true
  <-> c = TripPreferences \/ c = UserProfile.
Proof.
  split.
  - destruct c; simpl; intros H; try discriminate; auto.
  - intros [->| ->]; reflexivity.
Qed.

Lemma field_skip {A} (name k : string) (f : Value -> Result A)
    (default : option A) (v : Value) (data : Dict) :
  String.eqb k name = false ->
  field name f default ((k, v) :: data) = field name f default data.
Proof.
  intros E. unfold field. simpl. rewrite String.eqb_sym, E. reflexivity.
Qed.

(** X20.  Unknown keys are ignored: a key that is not a field of the
    class changes nothing in what validation returns, for every class and
    every input. *)
Theorem unknown_keys_ignored (core : Core) (now : datetime) (c : ModelClass)
    (k : string) (v : Value) (data : Dict) :
  is_field c k = false ->
  model_validate (core := core) now c (VDict ((k, v) :: data))
  = model_validate (core := core) now c (VDict data).
Proof.
  unfold is_field. intros H.
  destruct c; simpl in H;
    repeat (apply orb_false_elim in H as [? H]);
    cbn [model_validate]; f_equal;
    unfold TripPreferences.model_validate, Destination.model_validate,
      ActivityNote.model_validate, Activity.model_validate,
      TravelSegment.model_validate, ItineraryDay.model_validate,
      Flight.model_validate, Accommodation.model_validate,
      Itinerary.model_validate, ChatMessage.model_validate,
      UserProfile.model_validate, model_validator,
      TripPreferences.validate_fields, Destination.validate_fields,
      ActivityNote.validate_fields, Activity.validate_fields,
      TravelSegment.validate_fields, ItineraryDay.validate_fields,
      Flight.validate_fields, Accommodation.validate_fields,
      Itinerary.validate_fields, ChatMessage.validate_fields,
      UserProfile.validate_fields;
    rewrite !field_skip by assumption; reflexivity.
Qed.

(** X20 on a destination given with a key it does not have. *)
Lemma unknown_keys_ignored_witness :
  model_validate (core := native_core) clock Destination
    (VDict (("population", VInt 1464000) :: kyoto))
  = Ok (OfDestination (Destination.mk "Kyoto" "Japan" None None)).
Proof.
  rewrite (unknown_keys_ignored native_core clock Destination "population"
             (VInt 1464000) kyoto eq_refl).
  reflexivity.
Defined.
